(** * Announcements router: a shallow embedding and its properties

    The development follows [src/backend/routers/announcements.py]: the five
    request handlers ([get_active_announcements], [get_all_announcements],
    [create_announcement], [update_announcement], [delete_announcement]) and
    the helper [_serialize].  Handlers run in a small state-and-exception
    monad over the two collections they import from the database module. *)

From Stdlib Require Import ZArith NArith String Ascii List Sorted Permutation Lia.
From stdpp Require Import base gmap strings list sorting.

Local Open Scope string_scope.
Local Open Scope Z_scope.

(** ** Python values

    A request body is a [Dict[str, Any]] decoded from JSON, so a field can
    hold any JSON value.  JSON numbers are represented by integers. *)

#[warnings="-register-all"]
Inductive value : Type :=
| VNone
| VBool (b : bool)
| VInt (z : Z)
| VStr (s : string)
| VList (l : list value)
| VDict (d : list (string * value)).

(** [bool(v)]: the truth value Python gives to [v]. *)
Definition truthy (v : value) : bool :=
  match v with
  | VNone => false
  | VBool b => b
  | VInt z => negb (z =? 0)
  | VStr s => negb (String.eqb s "")
  | VList l => match l with [] => false | _ :: _ => true end
  | VDict d => match d with [] => false | _ :: _ => true end
  end.

(** [v is not None]. *)
Definition is_not_None (v : value) : bool :=
  match v with VNone => false | _ => true end.

(** [d.get(k)]: the value under [k], [None] when the key is missing. *)
Definition dict_get (d : gmap string value) (k : string) : value :=
  default VNone (d !! k).

(** [bool(s)] for an [Optional[str]]: [None] and the empty string are false. *)
Definition truthy_opt_str (o : option string) : bool :=
  match o with
  | None => false
  | Some s => negb (String.eqb s "")
  end.

(** ** Dates and [date.isoformat] *)

Record date : Type := { year : nat; month : nat; day : nat }.

Definition digit (n : nat) : ascii := ascii_of_nat (48 + n mod 10).

(** [n] written with [width] decimal digits, zero padded. *)
Fixpoint zero_padded (width n : nat) : string :=
  match width with
  | O => EmptyString
  | S w => zero_padded w (n / 10) +:+ String (digit n) EmptyString
  end.

Definition isoformat (d : date) : string :=
  zero_padded 4 (year d) +:+ "-" +:+ zero_padded 2 (month d) +:+ "-"
  +:+ zero_padded 2 (day d).

(** ** [uuid.uuid4] and [str] of a UUID

    [uuid4] draws 16 random bytes and fixes the variant and version bits;
    [str] prints the 128-bit number as 32 hexadecimal digits in groups of
    8-4-4-4-12.  The random bytes are an explicit argument. *)

Definition uuid4 (random : Z) : Z :=
  let i := random mod 2 ^ 128 in
  let i := Z.land i (Z.lnot (Z.shiftl 0xc000 48)) in
  let i := Z.lor i (Z.shiftl 0x8000 48) in
  let i := Z.land i (Z.lnot (Z.shiftl 0xf000 64)) in
  Z.lor i (Z.shiftl 4 76).

Definition hex_digit (z : Z) : ascii :=
  let n := Z.to_nat (z mod 16) in
  if (n <? 10)%nat then ascii_of_nat (48 + n) else ascii_of_nat (87 + n).

(** The [count] hexadecimal digits of [z] that end at bit [4 * low]. *)
Fixpoint hex_field (count : nat) (low : Z) (z : Z) : string :=
  match count with
  | O => EmptyString
  | S c =>
      hex_field c (low + 1) z
      +:+ String (hex_digit (Z.shiftr z (4 * low))) EmptyString
  end.

Definition uuid_str (u : Z) : string :=
  hex_field 8 24 u +:+ "-" +:+ hex_field 4 20 u +:+ "-" +:+ hex_field 4 16 u
  +:+ "-" +:+ hex_field 4 12 u +:+ "-" +:+ hex_field 12 0 u.

(** ** Ordering of field values

    Strings compare byte by byte; values of different kinds are ordered by
    kind, with null lowest. *)

Definition kind_rank (v : value) : nat :=
  match v with
  | VNone => 0
  | VInt _ => 1
  | VStr _ => 2
  | VDict _ => 3
  | VList _ => 4
  | VBool _ => 5
  end.

Definition value_leb (a b : value) : bool :=
  match a, b with
  | VInt x, VInt y => x <=? y
  | VStr x, VStr y => String.leb x y
  | VBool x, VBool y => implb x y
  | _, _ => (kind_rank a <=? kind_rank b)%nat
  end.

(** ** Documents and collections

    A stored document is a dictionary; its ["_id"] entry is kept apart from
    the other entries, and ids are strings (every id this module creates is
    [str(uuid.uuid4())]). *)

Record document : Type := { _id : string; entries : gmap string value }.

Definition doc_get (doc : document) (k : string) : value :=
  dict_get (entries doc) k.

(** A collection maps each ["_id"] to the rest of its document, so ids are
    unique within a collection. *)
Abbreviation collection := (gmap string (gmap string value)).

(** The two collections imported from [..database]. *)
Record database : Type := {
  announcements_collection : collection;
  teachers_collection : collection
}.

(** ** Exceptions and the handler monad *)

Inductive exn : Type :=
| HTTPException (status_code : Z) (detail : string)
| DuplicateKeyError
| AttributeError.

Inductive outcome (A : Type) : Type :=
| Return (a : A)
| Raise (e : exn).
Arguments Return {A} a.
Arguments Raise {A} e.

Definition M (A : Type) : Type := database -> outcome A * database.

Definition ret {A} (a : A) : M A := fun db => (Return a, db).

Definition raise {A} (e : exn) : M A := fun db => (Raise e, db).

Definition bind {A B} (m : M A) (k : A -> M B) : M B :=
  fun db =>
    match m db with
    | (Return a, db') => k a db'
    | (Raise e, db') => (Raise e, db')
    end.

Notation "'let%m' x := m 'in' k" := (bind m (fun x => k))
  (at level 10, x name, m at level 100, k at level 200).
Notation "m ;; k" := (bind m (fun _ => k))
  (at level 100, k at level 200, right associativity).

(** [if cond: raise e]. *)
Definition raise_if (cond : bool) (e : exn) : M unit :=
  if cond then raise e else ret tt.

(** ** Queries

    The filter documents the handlers build: a field compared with a string
    bound, a field equal to null, a field's presence, and the connectives. *)

#[warnings="-register-all"]
Inductive query : Type :=
| Gte (field : string) (bound : string)
| Lte (field : string) (bound : string)
| IsNone (field : string)
| Exists (field : string) (present : bool)
| And (q1 q2 : query)
| Or (qs : list query).

(** Modelled from the spec: the record store's filter ("find-filtered").
    A comparison with a string bound holds of string values only and is the
    byte-wise string comparison; a null test holds of a null or missing
    field. *)
Fixpoint matches (q : query) (body : gmap string value) : bool :=
  match q with
  | Gte f bound =>
      match body !! f with
      | Some (VStr s) => String.leb bound s
      | _ => false
      end
  | Lte f bound =>
      match body !! f with
      | Some (VStr s) => String.leb s bound
      | _ => false
      end
  | IsNone f =>
      match body !! f with
      | Some VNone | None => true
      | Some _ => false
      end
  | Exists f present =>
      match body !! f with
      | Some _ => present
      | None => negb present
      end
  | And q1 q2 => matches q1 body && matches q2 body
  | Or qs => existsb (fun q' => matches q' body) qs
  end.

(** ** Collection operations *)

Definition to_document (kv : string * gmap string value) : document :=
  {| _id := kv.1; entries := kv.2 |}.

Definition documents (c : collection) : list document :=
  to_document <$> map_to_list c.

(** Ascending order of two documents on the field [key]; a missing field
    counts as null. *)
Definition by_field (key : string) : relation document :=
  fun d1 d2 => Is_true (value_leb (doc_get d1 key) (doc_get d2 key)).

#[global] Instance by_field_dec key d1 d2 : Decision (by_field key d1 d2).
Proof. unfold by_field. apply _. Defined.

Definition selects (q : option query) (doc : document) : Prop :=
  match q with
  | None => True
  | Some q' => Is_true (matches q' (entries doc))
  end.

#[global] Instance selects_dec q doc : Decision (selects q doc).
Proof. destruct q; simpl; apply _. Defined.

(** Modelled from the spec: the record store's "find-all" and
    "find-filtered-sorted", [collection.find(q).sort(key, 1)]. *)
Definition find_sorted (c : collection) (q : option query) (key : string)
  : list document :=
  merge_sort (by_field key) (filter (selects q) (documents c)).

(** Modelled from the spec: the record store's "find-by-id",
    [collection.find_one({"_id": key})]. *)
Definition find_one (c : collection) (key : option string) : option document :=
  match key with
  | None => None
  | Some i => (fun body => {| _id := i; entries := body |}) <$> c !! i
  end.

(** Modelled from the spec: the record store's "insert", [insert_one]; the
    id must not be taken. *)
Definition insert_one (c : collection) (doc : document) : option collection :=
  match c !! _id doc with
  | Some _ => None
  | None => Some (<[_id doc := entries doc]> c)
  end.

(** Modelled from the spec: the record store's "partial-update",
    [update_one({"_id": i}, {"$set": fields})]. *)
Definition update_one (c : collection) (i : string) (fields : gmap string value)
  : collection :=
  match c !! i with
  | Some body => <[i := fields ∪ body]> c
  | None => c
  end.

(** Modelled from the spec: the record store's "delete-by-id",
    [delete_one({"_id": i})], with its [deleted_count]. *)
Definition delete_one (c : collection) (i : string) : collection * Z :=
  match c !! i with
  | Some _ => (delete i c, 1)
  | None => (c, 0)
  end.

(** The operations lifted to the handler monad. *)

Definition announcements_find_sorted (q : option query) (key : string)
  : M (list document) :=
  fun db => (Return (find_sorted (announcements_collection db) q key), db).

Definition announcements_find_one (key : option string) : M (option document) :=
  fun db => (Return (find_one (announcements_collection db) key), db).

Definition teachers_find_one (key : option string) : M (option document) :=
  fun db => (Return (find_one (teachers_collection db) key), db).

Definition with_announcements (c : collection) (db : database) : database :=
  {| announcements_collection := c;
     teachers_collection := teachers_collection db |}.

Definition announcements_insert_one (doc : document) : M unit :=
  fun db =>
    match insert_one (announcements_collection db) doc with
    | Some c => (Return tt, with_announcements c db)
    | None => (Raise DuplicateKeyError, db)
    end.

Definition announcements_update_one (i : string) (fields : gmap string value)
  : M unit :=
  fun db =>
    (Return tt,
     with_announcements (update_one (announcements_collection db) i fields) db).

Definition announcements_delete_one (i : string) : M Z :=
  fun db =>
    let '(c, deleted_count) := delete_one (announcements_collection db) i in
    (Return deleted_count, with_announcements c db).

(** ** The router *)

(** The serialized announcement: a dictionary with exactly these five keys. *)
Record announcement : Type := {
  ann_id : string;
  ann_text : value;
  ann_start_date : value;
  ann_expiration_date : value;
  ann_created_by : value
}.

Definition _serialize (doc : document) : announcement :=
  {| ann_id := _id doc;
     ann_text := doc_get doc "text";
     ann_start_date := doc_get doc "start_date";
     ann_expiration_date := doc_get doc "expiration_date";
     ann_created_by := doc_get doc "created_by" |}.

(** The filter of [get_active_announcements]. *)
Definition active_query (today : string) : query :=
  And (Gte "expiration_date" today)
      (Or [Lte "start_date" today;
           IsNone "start_date";
           Exists "start_date" false]).

Definition get_active_announcements (clock : date) : M (list announcement) :=
  let today := isoformat clock in
  let query := active_query today in
  let%m found := announcements_find_sorted (Some query) "expiration_date" in
  ret (_serialize <$> found).

Definition get_all_announcements : M (list announcement) :=
  let%m found := announcements_find_sorted None "expiration_date" in
  ret (_serialize <$> found).

(** An [Optional[str]] as a value. *)
Definition of_opt_str (o : option string) : value :=
  match o with
  | None => VNone
  | Some s => VStr s
  end.

(** [not teacher]: a document that was found has an ["_id"] and is true. *)
Definition not_found (o : option document) : bool :=
  match o with
  | None => true
  | Some _ => false
  end.

Definition create_announcement (random : Z) (payload : gmap string value)
    (teacher_username : option string) : M announcement :=
  raise_if (negb (truthy_opt_str teacher_username))
    (HTTPException 401 "Authentication required to create announcements") ;;
  let%m teacher := teachers_find_one teacher_username in
  raise_if (not_found teacher)
    (HTTPException 401 "Invalid teacher credentials") ;;
  let text := dict_get payload "text" in
  let expiration_date := dict_get payload "expiration_date" in
  let start_date := dict_get payload "start_date" in
  raise_if (negb (truthy expiration_date))
    (HTTPException 400 "expiration_date is required") ;;
  let new_doc :=
    {| _id := uuid_str (uuid4 random);
       entries :=
         <["text" := text]>
           (<["start_date" := start_date]>
              (<["expiration_date" := expiration_date]>
                 (<["created_by" := of_opt_str teacher_username]> ∅))) |} in
  announcements_insert_one new_doc ;;
  ret (_serialize new_doc).

Definition dict_is_empty (d : gmap string value) : bool :=
  match map_to_list d with
  | [] => true
  | _ :: _ => false
  end.

(** [if v is not None: d[k] = v]. *)
Definition set_if_not_None (k : string) (v : value) (d : gmap string value)
  : gmap string value :=
  if is_not_None v then <[k := v]> d else d.

Definition update_announcement (announcement_id : string)
    (payload : gmap string value) (teacher_username : option string)
  : M announcement :=
  raise_if (negb (truthy_opt_str teacher_username))
    (HTTPException 401 "Authentication required to update announcements") ;;
  let%m teacher := teachers_find_one teacher_username in
  raise_if (not_found teacher)
    (HTTPException 401 "Invalid teacher credentials") ;;
  let%m doc := announcements_find_one (Some announcement_id) in
  raise_if (not_found doc)
    (HTTPException 404 "Announcement not found") ;;
  let update_fields : gmap string value := ∅ in
  let text := dict_get payload "text" in
  let start_date := dict_get payload "start_date" in
  let expiration_date := dict_get payload "expiration_date" in
  let update_fields := set_if_not_None "text" text update_fields in
  let update_fields := set_if_not_None "start_date" start_date update_fields in
  let update_fields :=
    set_if_not_None "expiration_date" expiration_date update_fields in
  raise_if (dict_is_empty update_fields)
    (HTTPException 400 "No update fields provided") ;;
  announcements_update_one announcement_id update_fields ;;
  let%m updated := announcements_find_one (Some announcement_id) in
  match updated with
  | Some d => ret (_serialize d)
  | None => raise AttributeError
  end.

Definition delete_announcement (announcement_id : string)
    (teacher_username : option string) : M (gmap string value) :=
  raise_if (negb (truthy_opt_str teacher_username))
    (HTTPException 401 "Authentication required to delete announcements") ;;
  let%m teacher := teachers_find_one teacher_username in
  raise_if (not_found teacher)
    (HTTPException 401 "Invalid teacher credentials") ;;
  let%m deleted_count := announcements_delete_one announcement_id in
  raise_if (deleted_count =? 0)
    (HTTPException 404 "Announcement not found") ;;
  ret {[ "message" := VStr "Announcement deleted" ]}.

(** ** The specification's vocabulary *)

(** Ascending order of two serialized announcements on [expiration_date]. *)
Definition by_expiration_date : relation announcement :=
  fun a b => Is_true (value_leb (ann_expiration_date a) (ann_expiration_date b)).

(** "Active" in the spec's words: [expiration_date >= today] as strings, and
    [start_date] absent, null, or [<= today] as strings. *)
Definition is_active (today : string) (body : gmap string value) : Prop :=
  (∃ e, body !! "expiration_date" = Some (VStr e) ∧ String.leb today e = true)
  ∧ (body !! "start_date" = None
     ∨ body !! "start_date" = Some VNone
     ∨ ∃ s, body !! "start_date" = Some (VStr s) ∧ String.leb s today = true).

(** The serialized form of the document stored under [i]. *)
Definition stored_as (db : database) (i : string) (body : gmap string value)
    (a : announcement) : Prop :=
  announcements_collection db !! i = Some body
  ∧ a = _serialize {| _id := i; entries := body |}.

(** The caller passes the authorization check: an identity is supplied, it
    is not the empty string, and it is the id of a stored teacher. *)
Definition authorized (db : database) (u : option string) : Prop :=
  ∃ s, u = Some s ∧ s ≠ "" ∧ is_Some (teachers_collection db !! s).

(** The handler's run ends in an HTTP error with status [code]. *)
Definition fails_with {A} (r : outcome A * database) (code : Z) : Prop :=
  ∃ detail, r.1 = Raise (HTTPException code detail).

(** The specification's words for a caller to be turned away: the identity is absent
    or does not exist in the authorized-identity store. *)
Definition absent_or_unknown (db : database) (u : option string) : Prop :=
  u = None ∨ ∃ s, u = Some s ∧ teachers_collection db !! s = None.

(** The specification's words for a payload entry: missing (no key, or null) or
    empty (the empty string, list or object). *)
Definition missing_or_empty (o : option value) : Prop :=
  o = None ∨ o = Some VNone ∨ o = Some (VStr "") ∨ o = Some (VList [])
  ∨ o = Some (VDict []).

(** The document [create_announcement] builds. *)
Definition new_entries (payload : gmap string value) (u : option string)
  : gmap string value :=
  <["text" := dict_get payload "text"]>
    (<["start_date" := dict_get payload "start_date"]>
       (<["expiration_date" := dict_get payload "expiration_date"]>
          (<["created_by" := of_opt_str u]> ∅))).

(** The three fields [update_announcement] may replace. *)
Definition updatable (k : string) : Prop :=
  k = "text" ∨ k = "start_date" ∨ k = "expiration_date".

(** The [update_fields] dictionary [update_announcement] collects. *)
Definition update_fields_of (payload : gmap string value) : gmap string value :=
  set_if_not_None "expiration_date" (dict_get payload "expiration_date")
    (set_if_not_None "start_date" (dict_get payload "start_date")
       (set_if_not_None "text" (dict_get payload "text") ∅)).

#[global] Instance updatable_dec k : Decision (updatable k).
Proof. unfold updatable. apply _. Defined.

(** The run ends in an HTTP error with status [code] and leaves the
    database as it was. *)
Definition rejected_unchanged {A} (r : outcome A * database) (db : database)
    (code : Z) : Prop :=
  ∃ detail, r = (Raise (HTTPException code detail), db).

(** What the authorization check turns away: an identity that is absent,
    the empty string, or not the id of a stored teacher. *)
Definition absent_empty_or_unknown (db : database) (u : option string) : Prop :=
  u = None ∨ u = Some "" ∨ ∃ s, u = Some s ∧ teachers_collection db !! s = None.

(** What the required-field check of [create_announcement] turns away: a
    missing or empty entry, and also [false] and [0]. *)
Definition missing_or_falsy (o : option value) : Prop :=
  missing_or_empty o ∨ o = Some (VBool false) ∨ o = Some (VInt 0).

(** A run that raises leaves the database as it was before the call. *)
Definition unchanged_on_error {A} (r : outcome A * database) (db : database)
  : Prop :=
  match r.1 with
  | Raise _ => r.2 = db
  | Return _ => True
  end.

(** ** Sample data *)

Definition sample_body : gmap string value :=
  <["text" := VStr "Science fair"]>
    (<["start_date" := VStr "2026-01-01"]>
       (<["expiration_date" := VStr "2099-01-01"]>
          (<["created_by" := VStr "mrodriguez"]> ∅))).

Definition sample_db : database :=
  {| announcements_collection := {[ "a1" := sample_body ]};
     teachers_collection := {[ "mrodriguez" := ∅ ]} |}.

(** A teacher store that holds a teacher whose id is the empty string. *)
Definition blank_teacher_db : database :=
  {| announcements_collection := ∅;
     teachers_collection := {[ "" := ∅ ]} |}.

(** ** Further vocabulary *)

(** The data model's invariant: every stored announcement has an
    [expiration_date] entry that is not null. *)
Definition expiration_dates_set (db : database) : Prop :=
  ∀ i body, announcements_collection db !! i = Some body →
    ∃ v, body !! "expiration_date" = Some v ∧ v ≠ VNone.

(** The run returns normally. *)
Definition succeeds {A} (r : outcome A * database) : Prop :=
  ∃ a, r.1 = Return a.

(** The records [get_all_announcements] lists. *)
Definition listing (db : database) : list announcement :=
  _serialize <$>
    find_sorted (announcements_collection db) None "expiration_date".

(** The records [get_active_announcements] lists on the day [clock]. *)
Definition active_listing (clock : date) (db : database) : list announcement :=
  _serialize <$>
    find_sorted (announcements_collection db)
      (Some (active_query (isoformat clock))) "expiration_date".

(** A calendar date as Python's [date] admits it, as far as the printed
    width goes: four digits of year, two of month and of day. *)
Definition printable (d : date) : Prop :=
  (year d < 10 ^ 4 ∧ month d < 10 ^ 2 ∧ day d < 10 ^ 2)%nat.

(** Chronological order of dates. *)
Definition date_le (d1 d2 : date) : Prop :=
  (year d1 < year d2
   ∨ (year d1 = year d2
      ∧ (month d1 < month d2
         ∨ (month d1 = month d2 ∧ day d1 ≤ day d2))))%nat.

(** * Properties *)

Lemma ascii_compare_refl a : Ascii.compare a a = Eq.
Proof. unfold Ascii.compare. apply N.compare_refl. Qed.

Lemma string_compare_trans s1 : forall s2 s3 c,
  String.compare s1 s2 = c -> String.compare s2 s3 = c -> String.compare s1 s3 = c.
Proof.
  induction s1 as [|a1 s1 IH]; intros [|a2 s2] [|a3 s3] c; simpl; try congruence.
  unfold Ascii.compare.
  destruct (N.compare_spec (N_of_ascii a1) (N_of_ascii a2)) as [E12|L12|G12];
  destruct (N.compare_spec (N_of_ascii a2) (N_of_ascii a3)) as [E23|L23|G23];
  intros H1 H2; try congruence.
  - rewrite E12, E23, N.compare_refl. eauto.
  - subst c. rewrite E12. apply N.compare_lt_iff in L23. by rewrite L23.
  - subst c. rewrite E12. apply N.compare_gt_iff in G23. by rewrite G23.
  - subst c. rewrite <- E23. apply N.compare_lt_iff in L12. by rewrite L12.
  - subst c. assert (N_of_ascii a1 < N_of_ascii a3)%N as L by lia.
    apply N.compare_lt_iff in L. by rewrite L.
  - subst c. rewrite <- E23. apply N.compare_gt_iff in G12. by rewrite G12.
  - subst c. assert (N_of_ascii a3 < N_of_ascii a1)%N as L by lia.
    apply N.compare_gt_iff in L. by rewrite L.
Qed.

Lemma string_leb_trans s1 s2 s3 :
  String.leb s1 s2 = true -> String.leb s2 s3 = true -> String.leb s1 s3 = true.
Proof.
  unfold String.leb.
  destruct (String.compare s1 s2) eqn:H12; try discriminate;
  destruct (String.compare s2 s3) eqn:H23; try discriminate; intros _ _.
  - apply String.compare_eq_iff in H12. subst. by rewrite H23.
  - apply String.compare_eq_iff in H12. subst. by rewrite H23.
  - apply String.compare_eq_iff in H23. subst. by rewrite H12.
  - by rewrite (string_compare_trans _ _ _ _ H12 H23).
Qed.

Lemma string_leb_refl s : String.leb s s = true.
Proof. destruct (String.leb_total s s); done. Qed.

Lemma value_leb_total a b : value_leb a b = true \/ value_leb b a = true.
Proof.
  destruct a, b; simpl; auto using String.leb_total.
  - destruct b, b0; auto.
  - destruct (Z.leb_spec z z0); [auto|right; apply Z.leb_le; lia].
Qed.

Lemma value_leb_trans a b c :
  value_leb a b = true -> value_leb b c = true -> value_leb a c = true.
Proof.
  destruct a, b, c; simpl; try done; eauto using string_leb_trans.
  - destruct b, b0, b1; done.
  - rewrite !Z.leb_le; lia.
Qed.

#[global] Instance by_field_total key : Total (by_field key).
Proof.
  intros d1 d2. unfold by_field.
  destruct (value_leb_total (doc_get d1 key) (doc_get d2 key)) as [H|H];
    rewrite H; simpl; auto.
Qed.

#[global] Instance by_field_trans key : Transitive (by_field key).
Proof.
  intros d1 d2 d3. unfold by_field. rewrite !Is_true_true.
  apply value_leb_trans.
Qed.

Lemma elem_of_documents (c : collection) (d : document) :
  d ∈ documents c ↔ c !! _id d = Some (entries d).
Proof.
  unfold documents. rewrite list_elem_of_fmap. split.
  - intros [[i body] [-> Hin]]. simpl. by apply elem_of_map_to_list.
  - intros Hl. exists (_id d, entries d). split; [by destruct d|].
    by apply elem_of_map_to_list.
Qed.

Lemma documents_ids (c : collection) : _id <$> documents c = (map_to_list c).*1.
Proof.
  unfold documents. rewrite <- list_fmap_compose. by apply list_fmap_ext.
Qed.

Lemma NoDup_documents_ids (c : collection) : NoDup (_id <$> documents c).
Proof. rewrite documents_ids. apply NoDup_fst_map_to_list. Qed.

Lemma find_sorted_Permutation c q key :
  find_sorted c q key ≡ₚ filter (selects q) (documents c).
Proof. apply merge_sort_Permutation. Qed.

Lemma elem_of_find_sorted c q key d :
  d ∈ find_sorted c q key ↔ c !! _id d = Some (entries d) ∧ selects q d.
Proof.
  rewrite find_sorted_Permutation, list_elem_of_filter, elem_of_documents.
  tauto.
Qed.

Lemma find_sorted_sorted c q key :
  StronglySorted (by_field key) (find_sorted c q key).
Proof. apply StronglySorted_merge_sort; apply _. Qed.

Lemma NoDup_find_sorted_ids c q key : NoDup (_id <$> find_sorted c q key).
Proof.
  rewrite find_sorted_Permutation.
  eapply sublist_NoDup; [apply (NoDup_documents_ids c)|].
  apply fmap_sublist, sublist_filter.
Qed.

Lemma matches_active_query today body :
  Is_true (matches (active_query today) body) ↔ is_active today body.
Proof.
  unfold active_query, is_active. simpl.
  destruct (body !! "expiration_date") as [[| | |e| |]|] eqn:He;
    destruct (body !! "start_date") as [[| | |s| |]|] eqn:Hs; simpl;
    rewrite ?andb_True, ?orb_True, ?Is_true_true; split; intros H;
    try (exfalso; tauto);
    try (destruct H as [[? [? ?]] H]; try discriminate);
    try (destruct H as [H0 H]; try done);
    repeat match goal with
    | H : _ ∨ _ |- _ => destruct H
    | H : ∃ _, _ |- _ => destruct H
    | H : _ ∧ _ |- _ => destruct H
    | H : Some _ = Some _ |- _ => injection H as H; subst
    | H : Some _ = None |- _ => discriminate H
    | H : None = Some _ |- _ => discriminate H
    end; try discriminate; try done; eauto 10.
Qed.

Lemma serialize_expiration_date d :
  ann_expiration_date (_serialize d) = doc_get d "expiration_date".
Proof. reflexivity. Qed.

Lemma sorted_serialized (l : list document) :
  StronglySorted (by_field "expiration_date") l →
  StronglySorted by_expiration_date (_serialize <$> l).
Proof. apply StronglySorted_fmap. by intros x y. Qed.

Lemma serialized_ids (l : list document) : ann_id <$> (_serialize <$> l) = _id <$> l.
Proof. rewrite <- list_fmap_compose. by apply list_fmap_ext. Qed.

(** C1: for every store and every current date, [get_active_announcements]
    returns, once each, exactly the stored announcements whose
    [expiration_date] is a string [>= today] and whose [start_date] is
    absent, null, or a string [<= today]; the result is in non-decreasing
    order of [expiration_date], which on these records is the order of
    strings.  The database is not changed. *)
Theorem list_active_exact (clock : date) (db : database) :
  ∃ res,
    get_active_announcements clock db = (Return res, db)
    ∧ (∀ a, a ∈ res ↔
         ∃ i body, stored_as db i body a ∧ is_active (isoformat clock) body)
    ∧ NoDup (ann_id <$> res)
    ∧ StronglySorted by_expiration_date res
    ∧ (∀ a, a ∈ res → ∃ e, ann_expiration_date a = VStr e).
Proof.
  eexists. split; [reflexivity|]. split; [|split; [|split]].
  - intros a. rewrite list_elem_of_fmap. split.
    + intros [d [-> Hd]]. apply elem_of_find_sorted in Hd as [Hl Hq].
      exists (_id d), (entries d). split.
      * split; [done|]. by destruct d.
      * by apply matches_active_query.
    + intros (i & body & [Hl ->] & Hact).
      eexists. split; [reflexivity|]. apply elem_of_find_sorted. split; [done|].
      by apply matches_active_query.
  - rewrite serialized_ids. apply NoDup_find_sorted_ids.
  - apply sorted_serialized, find_sorted_sorted.
  - intros a [d [-> Hd]]%list_elem_of_fmap.
    apply elem_of_find_sorted in Hd as [_ Hq].
    apply matches_active_query in Hq as [[e [He _]] _].
    exists e. simpl. unfold doc_get, dict_get. by rewrite He.
Qed.

Lemma filter_selects_None (l : list document) : filter (selects None) l = l.
Proof.
  induction l as [|d l IH]; [done|].
  rewrite filter_cons. destruct (decide (selects None d)) as [_|[]]; [|done].
  by rewrite IH.
Qed.

Lemma length_find_all c key : length (find_sorted c None key) = size c.
Proof.
  rewrite find_sorted_Permutation, filter_selects_None.
  unfold documents. by rewrite length_fmap, length_map_to_list.
Qed.

(** C9: for every store, [get_all_announcements] returns every stored
    announcement, once each and with no filtering, in non-decreasing order
    of [expiration_date]; whatever the date, each record
    [get_active_announcements] returns is among them, and that result is
    sorted by the same order. *)
Theorem list_all_superset (db : database) :
  ∃ res,
    get_all_announcements db = (Return res, db)
    ∧ (∀ a, a ∈ res ↔ ∃ i body, stored_as db i body a)
    ∧ NoDup (ann_id <$> res)
    ∧ length res = size (announcements_collection db)
    ∧ StronglySorted by_expiration_date res
    ∧ ∀ clock, ∃ act,
        get_active_announcements clock db = (Return act, db)
        ∧ act ⊆ res
        ∧ StronglySorted by_expiration_date act.
Proof.
  eexists. split; [reflexivity|]. repeat split.
  - intros [d [-> Hd]]%list_elem_of_fmap.
    apply elem_of_find_sorted in Hd as [Hl _].
    exists (_id d), (entries d). split; [done|]. by destruct d.
  - intros (i & body & Hl & ->). apply list_elem_of_fmap.
    eexists. split; [reflexivity|]. by apply elem_of_find_sorted.
  - rewrite serialized_ids. apply NoDup_find_sorted_ids.
  - by rewrite length_fmap, length_find_all.
  - apply sorted_serialized, find_sorted_sorted.
  - intros clock. eexists. split; [reflexivity|]. split.
    + intros a [d [-> Hd]]%list_elem_of_fmap. apply list_elem_of_fmap.
      exists d. split; [done|].
      apply elem_of_find_sorted in Hd as [Hl _]. by apply elem_of_find_sorted.
    + apply sorted_serialized, find_sorted_sorted.
Qed.

Lemma eqb_empty_false s : s ≠ "" → String.eqb s "" = false.
Proof. intros H. by apply String.eqb_neq. Qed.

Lemma authorized_inv db u :
  authorized db u →
  truthy_opt_str u = true ∧ not_found (find_one (teachers_collection db) u) = false.
Proof.
  intros (s & -> & Hs & [body Hb]). simpl.
  rewrite (eqb_empty_false _ Hs), Hb. done.
Qed.

Lemma not_authorized_inv db u :
  ¬ authorized db u →
  truthy_opt_str u = false ∨ not_found (find_one (teachers_collection db) u) = true.
Proof.
  intros Hn. destruct u as [s|]; [|by left]. simpl.
  destruct (String.eqb_spec s "") as [->|Hs]; [by left|].
  destruct (teachers_collection db !! s) as [body|] eqn:Hb; [|by right].
  exfalso. apply Hn. exists s. eauto.
Qed.

(** One step of a handler: the guards and the monad's [raise] and [ret]. *)
Ltac handler_step := cbn beta iota delta [negb raise ret].

(** What each handler does once the caller is authorized. *)

Lemma create_authorized random payload u db :
  authorized db u →
  create_announcement random payload u db =
    if truthy (dict_get payload "expiration_date") then
      match announcements_collection db !! uuid_str (uuid4 random) with
      | Some _ => (Raise DuplicateKeyError, db)
      | None =>
          (Return (_serialize {| _id := uuid_str (uuid4 random);
                                 entries := new_entries payload u |}),
           with_announcements
             (<[uuid_str (uuid4 random) := new_entries payload u]>
                (announcements_collection db)) db)
      end
    else (Raise (HTTPException 400 "expiration_date is required"), db).
Proof.
  intros [Ht Hf]%authorized_inv.
  unfold create_announcement, bind, raise_if, teachers_find_one.
  rewrite Ht. handler_step. rewrite Hf.
  destruct (truthy (dict_get payload "expiration_date"));
    handler_step; [|done].
  unfold announcements_insert_one, insert_one.
  cbn beta iota delta [_id entries].
  by destruct (announcements_collection db !! uuid_str (uuid4 random)).
Qed.

Lemma create_unauthorized random payload u db :
  ¬ authorized db u →
  ∃ detail, create_announcement random payload u db
            = (Raise (HTTPException 401 detail), db).
Proof.
  intros [Ht|Hf]%not_authorized_inv;
    unfold create_announcement, bind, raise_if, teachers_find_one.
  - rewrite Ht. cbn. eauto.
  - destruct (truthy_opt_str u); handler_step;
      [rewrite Hf|]; eauto.
Qed.

Lemma with_announcements_id db :
  with_announcements (announcements_collection db) db = db.
Proof. by destruct db. Qed.

Lemma update_authorized i payload u db :
  authorized db u →
  update_announcement i payload u db =
    match announcements_collection db !! i with
    | None => (Raise (HTTPException 404 "Announcement not found"), db)
    | Some body =>
        if dict_is_empty (update_fields_of payload) then
          (Raise (HTTPException 400 "No update fields provided"), db)
        else
          (Return (_serialize {| _id := i;
                                 entries := update_fields_of payload ∪ body |}),
           with_announcements
             (<[i := update_fields_of payload ∪ body]>
                (announcements_collection db)) db)
    end.
Proof.
  intros [Ht Hf]%authorized_inv.
  unfold update_announcement, bind, raise_if, teachers_find_one.
  rewrite Ht. handler_step. rewrite Hf.
  unfold announcements_find_one, find_one.
  handler_step.
  destruct (announcements_collection db !! i) as [body|] eqn:Hi;
    cbn beta iota delta [not_found fmap option_fmap option_map raise ret];
    [|done].
  fold (update_fields_of payload).
  destruct (dict_is_empty (update_fields_of payload));
    cbn beta iota delta [raise ret]; [done|].
  unfold announcements_update_one, update_one. rewrite Hi.
  cbn beta iota delta [with_announcements announcements_collection].
  rewrite lookup_insert_eq. done.
Qed.

Lemma update_unauthorized i payload u db :
  ¬ authorized db u →
  ∃ detail, update_announcement i payload u db
            = (Raise (HTTPException 401 detail), db).
Proof.
  intros [Ht|Hf]%not_authorized_inv;
    unfold update_announcement, bind, raise_if, teachers_find_one.
  - rewrite Ht. cbn. eauto.
  - destruct (truthy_opt_str u); handler_step;
      [rewrite Hf|]; eauto.
Qed.

Lemma delete_authorized i u db :
  authorized db u →
  delete_announcement i u db =
    match announcements_collection db !! i with
    | None => (Raise (HTTPException 404 "Announcement not found"), db)
    | Some _ =>
        (Return {[ "message" := VStr "Announcement deleted" ]},
         with_announcements (delete i (announcements_collection db)) db)
    end.
Proof.
  intros [Ht Hf]%authorized_inv.
  unfold delete_announcement, bind, raise_if, teachers_find_one.
  rewrite Ht. handler_step. rewrite Hf.
  unfold announcements_delete_one, delete_one.
  handler_step.
  destruct (announcements_collection db !! i) as [body|];
    cbn beta iota delta [raise ret Z.eqb]; [done|].
  by rewrite with_announcements_id.
Qed.

Lemma delete_unauthorized i u db :
  ¬ authorized db u →
  ∃ detail, delete_announcement i u db
            = (Raise (HTTPException 401 detail), db).
Proof.
  intros [Ht|Hf]%not_authorized_inv;
    unfold delete_announcement, bind, raise_if, teachers_find_one.
  - rewrite Ht. cbn. eauto.
  - destruct (truthy_opt_str u); handler_step;
      [rewrite Hf|]; eauto.
Qed.

Lemma lookup_set_if_not_None k v (d : gmap string value) k' :
  set_if_not_None k v d !! k' =
    if decide (k = k') then (if is_not_None v then Some v else d !! k')
    else d !! k'.
Proof.
  unfold set_if_not_None. destruct (is_not_None v).
  - apply lookup_insert.
  - by destruct (decide (k = k')).
Qed.

Lemma lookup_update_fields_updatable payload k :
  updatable k →
  update_fields_of payload !! k =
    if is_not_None (dict_get payload k) then Some (dict_get payload k) else None.
Proof.
  unfold update_fields_of.
  intros [Hk|[Hk|Hk]]; subst k; rewrite !lookup_set_if_not_None;
    repeat (case_decide; try done);
    destruct (is_not_None (dict_get payload _)); by rewrite ?lookup_empty.
Qed.

Lemma lookup_update_fields_other payload k :
  ¬ updatable k → update_fields_of payload !! k = None.
Proof.
  unfold update_fields_of, updatable. intros Hk.
  rewrite !lookup_set_if_not_None.
  repeat (case_decide; [exfalso; subst; tauto|]). apply lookup_empty.
Qed.

Lemma dict_is_empty_iff (d : gmap string value) :
  dict_is_empty d = true ↔ d = ∅.
Proof.
  unfold dict_is_empty. rewrite <- map_to_list_empty_iff.
  by destruct (map_to_list d).
Qed.

Lemma update_fields_empty payload :
  dict_is_empty (update_fields_of payload) = true ↔
  ∀ k, updatable k → dict_get payload k = VNone.
Proof.
  rewrite dict_is_empty_iff. split.
  - intros He k Hk. pose proof (lookup_update_fields_updatable payload k Hk) as Hl.
    rewrite He, lookup_empty in Hl. by destruct (dict_get payload k).
  - intros Hall. apply map_eq. intros k. rewrite lookup_empty.
    destruct (decide (updatable k)) as [Hk|Hk].
    + rewrite lookup_update_fields_updatable, Hall; done.
    + by apply lookup_update_fields_other.
Qed.

Lemma not_authorized_iff db u :
  ¬ authorized db u ↔ absent_empty_or_unknown db u.
Proof.
  unfold authorized, absent_empty_or_unknown. split.
  - intros Hn. destruct u as [s|]; [|by left]. right.
    destruct (decide (s = "")) as [->|Hs]; [by left|]. right.
    exists s. split; [done|].
    destruct (teachers_collection db !! s) eqn:Hb; [|done].
    exfalso. apply Hn. exists s. eauto.
  - intros [->|[->|(s & -> & Hb)]] (s' & Heq & Hs & Hsome); simplify_eq.
    rewrite Hb in Hsome. by destruct Hsome.
Qed.

Lemma sample_authorized : authorized sample_db (Some "mrodriguez").
Proof. exists "mrodriguez". split; [done|]. split; [done|]. by eexists. Qed.

(** The 401 outcome characterizes the failed authorization check, whatever
    the handler does afterwards. *)
Lemma unauthorized_run {A} (r : outcome A * database) db u :
  (authorized db u → ¬ fails_with r 401) →
  (¬ authorized db u → rejected_unchanged r db 401) →
  (fails_with r 401 ↔ absent_empty_or_unknown db u)
  ∧ (absent_empty_or_unknown db u ↔ rejected_unchanged r db 401).
Proof.
  intros Hyes Hno. rewrite <- not_authorized_iff. split; split.
  - intros Hf Ha. by apply (Hyes Ha).
  - intros Hn. destruct (Hno Hn) as [detail ->]. by exists detail.
  - apply Hno.
  - intros [detail ->] Ha. apply (Hyes Ha). by exists detail.
Qed.

(** C4 (as amended): each of [create_announcement], [update_announcement]
    and [delete_announcement] fails with 401 exactly when the caller
    identity is absent, is the empty string, or is not the id of a stored
    teacher; in that case the call ends with 401 and an unchanged database
    whatever the payload, the announcement id and the store hold, so the
    check comes before the existence check, the payload validation and any
    mutation. *)
Theorem unauthorized_iff random i payload u db :
  ((fails_with (create_announcement random payload u db) 401
    ↔ absent_empty_or_unknown db u)
   ∧ (absent_empty_or_unknown db u
      ↔ rejected_unchanged (create_announcement random payload u db) db 401))
  ∧ ((fails_with (update_announcement i payload u db) 401
      ↔ absent_empty_or_unknown db u)
     ∧ (absent_empty_or_unknown db u
        ↔ rejected_unchanged (update_announcement i payload u db) db 401))
  ∧ ((fails_with (delete_announcement i u db) 401
      ↔ absent_empty_or_unknown db u)
     ∧ (absent_empty_or_unknown db u
        ↔ rejected_unchanged (delete_announcement i u db) db 401)).
Proof.
  split; [|split]; apply unauthorized_run.
  - intros Ha [detail Hd]. rewrite (create_authorized _ _ _ _ Ha) in Hd.
    destruct (truthy _); [|simpl in Hd; congruence].
    destruct (announcements_collection db !! _); simpl in Hd; congruence.
  - apply create_unauthorized.
  - intros Ha [detail Hd]. rewrite (update_authorized _ _ _ _ Ha) in Hd.
    destruct (announcements_collection db !! i); [|simpl in Hd; congruence].
    destruct (dict_is_empty _); simpl in Hd; congruence.
  - apply update_unauthorized.
  - intros Ha [detail Hd]. rewrite (delete_authorized _ _ _ Ha) in Hd.
    destruct (announcements_collection db !! i); simpl in Hd; congruence.
  - apply delete_unauthorized.
Qed.

Lemma unauthorized_blank_identity :
  ¬ (fails_with (create_announcement 0 ∅ (Some "") blank_teacher_db) 401
     ↔ absent_or_unknown blank_teacher_db (Some "")).
Proof.
  intros [Hto _].
  destruct Hto as [H|(s & Hs & Hb)].
  - eexists. vm_compute. reflexivity.
  - discriminate.
  - injection Hs as <-. vm_compute in Hb. discriminate.
Qed.

Lemma authorized_or_not db u : authorized db u ∨ ¬ authorized db u.
Proof.
  destruct u as [s|]; [|right; by intros (s & ? & _)].
  destruct (decide (s = "")) as [->|Hs].
  { right. intros (s & ? & Hs & _). by simplify_eq. }
  destruct (teachers_collection db !! s) as [body|] eqn:Hb.
  - left. exists s. eauto.
  - right. intros (s' & ? & _ & [? Hsome]). simplify_eq.
Qed.

Lemma unchanged_on_rejection {A} (r : outcome A * database) db code :
  rejected_unchanged r db code → unchanged_on_error r db.
Proof. by intros [detail ->]. Qed.

(** C5: whenever [create_announcement], [update_announcement] or
    [delete_announcement] raises, whatever the error, the database is
    exactly the one from before the call. *)
Theorem errors_leave_store_unchanged random i payload u db :
  unchanged_on_error (create_announcement random payload u db) db
  ∧ unchanged_on_error (update_announcement i payload u db) db
  ∧ unchanged_on_error (delete_announcement i u db) db.
Proof.
  destruct (authorized_or_not db u) as [Ha|Hn].
  - rewrite (create_authorized _ _ _ _ Ha), (update_authorized _ _ _ _ Ha),
      (delete_authorized _ _ _ Ha).
    repeat split.
    + destruct (truthy _); [|done].
      by destruct (announcements_collection db !! _).
    + destruct (announcements_collection db !! i); [|done].
      by destruct (dict_is_empty _).
    + by destruct (announcements_collection db !! i).
  - repeat split; eapply unchanged_on_rejection.
    + by apply create_unauthorized.
    + by apply update_unauthorized.
    + by apply delete_unauthorized.
Qed.

(** C7: for an authorized caller and any payload, the empty one included,
    [update_announcement] on an id with no stored announcement fails with
    404 and changes nothing; the existence check comes before the payload
    is looked at. *)
Theorem update_missing_is_not_found i payload u db :
  authorized db u →
  announcements_collection db !! i = None →
  update_announcement i payload u db
  = (Raise (HTTPException 404 "Announcement not found"), db).
Proof. intros Ha Hi. by rewrite (update_authorized _ _ _ _ Ha), Hi. Qed.

Lemma update_missing_is_not_found_witness :
  update_announcement "missing" ∅ (Some "mrodriguez") sample_db
  = (Raise (HTTPException 404 "Announcement not found"), sample_db).
Proof.
  apply update_missing_is_not_found; [apply sample_authorized|reflexivity].
Defined.

(** C8: for a stored announcement id and an authorized caller, the first
    [delete_announcement] returns the confirmation and removes the record,
    leaving the teachers as they were, and a second delete of the same id
    fails with 404; in any database where the id is not stored the delete
    fails with 404 and changes nothing. *)
Theorem delete_twice i u db :
  authorized db u →
  is_Some (announcements_collection db !! i) →
  ∃ db',
    delete_announcement i u db
    = (Return {[ "message" := VStr "Announcement deleted" ]}, db')
    ∧ announcements_collection db' = delete i (announcements_collection db)
    ∧ announcements_collection db' !! i = None
    ∧ teachers_collection db' = teachers_collection db
    ∧ delete_announcement i u db'
      = (Raise (HTTPException 404 "Announcement not found"), db')
    ∧ ∀ db0, authorized db0 u →
             announcements_collection db0 !! i = None →
             delete_announcement i u db0
             = (Raise (HTTPException 404 "Announcement not found"), db0).
Proof.
  intros Ha [body Hi]. eexists. split.
  { rewrite (delete_authorized _ _ _ Ha), Hi. reflexivity. }
  simpl. split; [done|]. split; [apply lookup_delete_eq|]. split; [done|].
  split.
  - rewrite delete_authorized.
    + simpl. by rewrite lookup_delete_eq.
    + destruct Ha as (s & -> & Hs & Ht). exists s. eauto.
  - intros db0 Ha0 Hi0. by rewrite (delete_authorized _ _ _ Ha0), Hi0.
Qed.

Lemma delete_twice_witness :
  ∃ db',
    delete_announcement "a1" (Some "mrodriguez") sample_db
    = (Return {[ "message" := VStr "Announcement deleted" ]}, db')
    ∧ announcements_collection db'
      = delete "a1" (announcements_collection sample_db)
    ∧ announcements_collection db' !! "a1" = None
    ∧ teachers_collection db' = teachers_collection sample_db
    ∧ delete_announcement "a1" (Some "mrodriguez") db'
      = (Raise (HTTPException 404 "Announcement not found"), db')
    ∧ ∀ db0, authorized db0 (Some "mrodriguez") →
             announcements_collection db0 !! "a1" = None →
             delete_announcement "a1" (Some "mrodriguez") db0
             = (Raise (HTTPException 404 "Announcement not found"), db0).
Proof.
  apply delete_twice; [apply sample_authorized|by eexists].
Defined.

(** The entries of a document after [$set]. *)
Lemma lookup_after_set payload (body : gmap string value) k :
  (update_fields_of payload ∪ body) !! k =
    if decide (updatable k) then
      (if is_not_None (dict_get payload k) then Some (dict_get payload k)
       else body !! k)
    else body !! k.
Proof.
  case_decide as Hk.
  - pose proof (lookup_update_fields_updatable payload k Hk) as Hl.
    destruct (is_not_None (dict_get payload k)).
    + by apply lookup_union_Some_l.
    + by apply lookup_union_r.
  - by apply lookup_union_r, lookup_update_fields_other.
Qed.

(** C3: for an existing announcement and an authorized caller,
    [update_announcement] replaces exactly those of [text], [start_date],
    [expiration_date] for which the payload has a non-null value; entries
    that are absent or null in the payload, and every other entry
    ([created_by] among them), stay as they were, the document stays under
    its id, and no other document or teacher is touched.  The call either
    returns the stored document serialized, or, when the payload has none of
    the three, raises 400 and changes nothing. *)
Theorem update_replaces_supplied_fields i payload u db body :
  authorized db u →
  announcements_collection db !! i = Some body →
  ∃ out db' body',
    update_announcement i payload u db = (out, db')
    ∧ announcements_collection db' !! i = Some body'
    ∧ (∀ k, updatable k → is_not_None (dict_get payload k) = true →
            body' !! k = Some (dict_get payload k))
    ∧ (∀ k, updatable k → is_not_None (dict_get payload k) = false →
            body' !! k = body !! k)
    ∧ (∀ k, ¬ updatable k → body' !! k = body !! k)
    ∧ (∀ j, j ≠ i →
            announcements_collection db' !! j = announcements_collection db !! j)
    ∧ teachers_collection db' = teachers_collection db
    ∧ (out = Return (_serialize {| _id := i; entries := body' |})
       ∨ (out = Raise (HTTPException 400 "No update fields provided")
          ∧ db' = db
          ∧ ∀ k, updatable k → dict_get payload k = VNone)).
Proof.
  intros Ha Hi. rewrite (update_authorized _ _ _ _ Ha), Hi.
  destruct (dict_is_empty (update_fields_of payload)) eqn:He.
  - pose proof (proj1 (update_fields_empty payload) He) as Hnone.
    exists (Raise (HTTPException 400 "No update fields provided")), db, body.
    repeat split; try done.
    + intros k Hk Hnn. rewrite (Hnone k Hk) in Hnn. discriminate.
    + right. done.
  - eexists _, _, (update_fields_of payload ∪ body).
    split; [reflexivity|]. simpl.
    split; [apply lookup_insert_eq|].
    split; [|split; [|split; [|split; [|split]]]].
    + intros k Hk Hnn. rewrite lookup_after_set, decide_True, Hnn; done.
    + intros k Hk Hnn. rewrite lookup_after_set, decide_True, Hnn; done.
    + intros k Hk. rewrite lookup_after_set, decide_False; done.
    + intros j Hj. by apply lookup_insert_ne.
    + done.
    + by left.
Qed.

Lemma update_replaces_supplied_fields_witness :
  ∃ out db' body',
    update_announcement "a1" {[ "text" := VStr "new" ]} (Some "mrodriguez")
      sample_db = (out, db')
    ∧ announcements_collection db' !! "a1" = Some body'
    ∧ (∀ k, updatable k →
            is_not_None (dict_get {[ "text" := VStr "new" ]} k) = true →
            body' !! k = Some (dict_get {[ "text" := VStr "new" ]} k))
    ∧ (∀ k, updatable k →
            is_not_None (dict_get {[ "text" := VStr "new" ]} k) = false →
            body' !! k = sample_body !! k)
    ∧ (∀ k, ¬ updatable k → body' !! k = sample_body !! k)
    ∧ (∀ j, j ≠ "a1" →
            announcements_collection db' !! j
            = announcements_collection sample_db !! j)
    ∧ teachers_collection db' = teachers_collection sample_db
    ∧ (out = Return (_serialize {| _id := "a1"; entries := body' |})
       ∨ (out = Raise (HTTPException 400 "No update fields provided")
          ∧ db' = sample_db
          ∧ ∀ k, updatable k → dict_get {[ "text" := VStr "new" ]} k = VNone)).
Proof.
  apply update_replaces_supplied_fields; [apply sample_authorized|reflexivity].
Defined.

Example update_text_only :
  (update_announcement "a1" {[ "text" := VStr "new" ]} (Some "mrodriguez")
     sample_db).1
  = Return {| ann_id := "a1";
              ann_text := VStr "new";
              ann_start_date := VStr "2026-01-01";
              ann_expiration_date := VStr "2099-01-01";
              ann_created_by := VStr "mrodriguez" |}.
Proof. vm_compute. reflexivity. Qed.

Lemma length_string_app (s1 s2 : string) :
  String.length (s1 +:+ s2) = (String.length s1 + String.length s2)%nat.
Proof. induction s1 as [|c s1 IH]; simpl; [done|]. by rewrite IH. Qed.

Lemma length_hex_field count low z : String.length (hex_field count low z) = count.
Proof.
  revert low. induction count as [|c IH]; intros low; simpl; [done|].
  rewrite length_string_app, IH. simpl. lia.
Qed.

Lemma length_uuid_str u : String.length (uuid_str u) = 36%nat.
Proof.
  unfold uuid_str. rewrite !length_string_app, !length_hex_field. reflexivity.
Qed.

Lemma uuid_str_nonempty u : uuid_str u ≠ "".
Proof.
  intros He. pose proof (length_uuid_str u) as Hl. rewrite He in Hl.
  discriminate.
Qed.

Lemma falsy_iff (payload : gmap string value) k :
  truthy (dict_get payload k) = false ↔ missing_or_falsy (payload !! k).
Proof.
  unfold dict_get, missing_or_falsy, missing_or_empty. split.
  - destruct (payload !! k) as [v|]; [|auto]. destruct v as [|b|z|s|l|d]; simpl.
    + auto.
    + intros ->. auto.
    + intros Hz. apply negb_false_iff, Z.eqb_eq in Hz. subst z. auto.
    + intros Hs. apply negb_false_iff, String.eqb_eq in Hs. subst s. auto 6.
    + destruct l; [auto 8|discriminate].
    + destruct d; [auto 8|discriminate].
  - intros [[H|[H|[H|[H|H]]]]|[H|H]]; by rewrite H.
Qed.

Lemma create_rejects_iff random payload u db :
  authorized db u →
  (fails_with (create_announcement random payload u db) 400
   ↔ truthy (dict_get payload "expiration_date") = false)
  ∧ (truthy (dict_get payload "expiration_date") = false
     ↔ rejected_unchanged (create_announcement random payload u db) db 400).
Proof.
  intros Ha. rewrite (create_authorized _ _ _ _ Ha).
  destruct (truthy (dict_get payload "expiration_date")).
  - split; split; try done.
    + intros [detail Hd]. simpl in Hd.
      destruct (announcements_collection db !! _); simpl in Hd; congruence.
    + intros [detail Hd].
      destruct (announcements_collection db !! _); congruence.
  - split; split; try done; intros _; by eexists.
Qed.

(** C6 (as amended): for an authorized caller, [create_announcement] fails
    with 400 exactly when the payload's [expiration_date] is missing, null,
    empty (string, list or object), [false] or [0], whatever the payload
    holds for [text] and [start_date]; the database is then left as it
    was. *)
Theorem create_bad_request_iff random payload u db :
  authorized db u →
  (fails_with (create_announcement random payload u db) 400
   ↔ missing_or_falsy (payload !! "expiration_date"))
  ∧ (missing_or_falsy (payload !! "expiration_date")
     ↔ rejected_unchanged (create_announcement random payload u db) db 400).
Proof.
  intros Ha. rewrite <- falsy_iff. by apply create_rejects_iff.
Qed.

Lemma create_bad_request_iff_witness :
  (fails_with
     (create_announcement 7 {[ "text" := VStr "Science fair" ]}
        (Some "mrodriguez") sample_db) 400
   ↔ missing_or_falsy
       (({[ "text" := VStr "Science fair" ]} : gmap string value)
          !! "expiration_date"))
  ∧ (missing_or_falsy
       (({[ "text" := VStr "Science fair" ]} : gmap string value)
          !! "expiration_date")
     ↔ rejected_unchanged
         (create_announcement 7 {[ "text" := VStr "Science fair" ]}
            (Some "mrodriguez") sample_db) sample_db 400).
Proof. apply create_bad_request_iff, sample_authorized. Defined.

Lemma create_rejects_zero_expiration :
  ¬ (fails_with
       (create_announcement 7 {[ "expiration_date" := VInt 0 ]}
          (Some "mrodriguez") sample_db) 400
     ↔ missing_or_empty
         (({[ "expiration_date" := VInt 0 ]} : gmap string value)
            !! "expiration_date")).
Proof.
  intros [Hto _].
  assert (missing_or_empty (Some (VInt 0))) as [H|[H|[H|[H|H]]]];
    try discriminate.
  apply Hto. eexists. vm_compute. reflexivity.
Qed.

Lemma serialize_new_entries i payload u :
  _serialize {| _id := i; entries := new_entries payload u |}
  = {| ann_id := i;
       ann_text := dict_get payload "text";
       ann_start_date := dict_get payload "start_date";
       ann_expiration_date := dict_get payload "expiration_date";
       ann_created_by := of_opt_str u |}.
Proof.
  unfold _serialize, doc_get, new_entries. cbn [_id entries].
  f_equal.
Qed.

(** C2 (as amended): for an authorized caller and a payload whose
    [expiration_date] is not missing, null, empty, [false] or [0], and a
    generated id that is not yet taken, [create_announcement] returns a
    record whose id is the generated 36-character string, whose [text],
    [start_date] and [expiration_date] are the payload's entries (null when
    absent) and whose [created_by] is the caller; that record is stored
    under the new id, and nothing else in the database changes. *)
Theorem create_persists_record random payload u db :
  authorized db u →
  ¬ missing_or_falsy (payload !! "expiration_date") →
  announcements_collection db !! uuid_str (uuid4 random) = None →
  ∃ a db' body,
    create_announcement random payload u db = (Return a, db')
    ∧ ann_id a = uuid_str (uuid4 random)
    ∧ ann_id a ≠ ""
    ∧ String.length (ann_id a) = 36%nat
    ∧ ann_text a = default VNone (payload !! "text")
    ∧ ann_start_date a = default VNone (payload !! "start_date")
    ∧ ann_expiration_date a = default VNone (payload !! "expiration_date")
    ∧ Some (ann_created_by a) = VStr <$> u
    ∧ announcements_collection db' !! ann_id a = Some body
    ∧ a = _serialize {| _id := ann_id a; entries := body |}
    ∧ (∀ j, j ≠ ann_id a →
            announcements_collection db' !! j = announcements_collection db !! j)
    ∧ teachers_collection db' = teachers_collection db.
Proof.
  intros Ha Hexp Hfresh. rewrite (create_authorized _ _ _ _ Ha), Hfresh.
  destruct (truthy (dict_get payload "expiration_date")) eqn:Ht.
  2: { exfalso. by apply Hexp, falsy_iff. }
  eexists _, _, (new_entries payload u). split; [reflexivity|].
  rewrite serialize_new_entries.
  cbn [ann_id ann_text ann_start_date ann_expiration_date ann_created_by
       with_announcements announcements_collection teachers_collection].
  split; [done|]. split; [apply uuid_str_nonempty|].
  split; [apply length_uuid_str|].
  repeat (split; [done|]).
  split. { destruct Ha as (s & -> & _). done. }
  split; [apply lookup_insert_eq|].
  split; [by rewrite serialize_new_entries|]. split; [|done].
  intros j Hj. by apply lookup_insert_ne.
Qed.

Lemma create_persists_record_witness :
  ∃ a db' body,
    create_announcement 7 {[ "expiration_date" := VStr "2099-01-01" ]}
      (Some "mrodriguez") sample_db = (Return a, db')
    ∧ ann_id a = uuid_str (uuid4 7)
    ∧ ann_id a ≠ ""
    ∧ String.length (ann_id a) = 36%nat
    ∧ ann_text a = VNone
    ∧ ann_start_date a = VNone
    ∧ ann_expiration_date a = VStr "2099-01-01"
    ∧ Some (ann_created_by a) = Some (VStr "mrodriguez")
    ∧ announcements_collection db' !! ann_id a = Some body
    ∧ a = _serialize {| _id := ann_id a; entries := body |}
    ∧ (∀ j, j ≠ ann_id a →
            announcements_collection db' !! j
            = announcements_collection sample_db !! j)
    ∧ teachers_collection db' = teachers_collection sample_db.
Proof.
  assert (¬ missing_or_falsy
              (({[ "expiration_date" := VStr "2099-01-01" ]}
                 : gmap string value) !! "expiration_date")) as Hexp.
  { intros [[H|[H|[H|[H|H]]]]|[H|H]]; discriminate. }
  exact (create_persists_record 7 {[ "expiration_date" := VStr "2099-01-01" ]}
           (Some "mrodriguez") sample_db sample_authorized Hexp eq_refl).
Defined.

Lemma create_rejects_false_expiration :
  authorized sample_db (Some "mrodriguez")
  ∧ ¬ missing_or_empty
        (({[ "expiration_date" := VBool false ]} : gmap string value)
           !! "expiration_date")
  ∧ announcements_collection sample_db !! uuid_str (uuid4 7) = None
  ∧ ¬ ∃ a db',
        create_announcement 7 {[ "expiration_date" := VBool false ]}
          (Some "mrodriguez") sample_db = (Return a, db').
Proof.
  split; [apply sample_authorized|]. split; [|split; [reflexivity|]].
  - intros [H|[H|[H|[H|H]]]]; discriminate.
  - intros (a & db' & H). vm_compute in H. discriminate.
Qed.

Lemma created_expiration_truthy random payload u db a db' :
  create_announcement random payload u db = (Return a, db') →
  truthy (ann_expiration_date a) = true.
Proof.
  destruct (authorized_or_not db u) as [Ha|Hn].
  - rewrite (create_authorized _ _ _ _ Ha).
    destruct (truthy (dict_get payload "expiration_date")) eqn:Ht; [|done].
    destruct (announcements_collection db !! _); [done|].
    intros [= <- _]. by rewrite serialize_new_entries.
  - destruct (create_unauthorized random payload u db Hn) as [detail ->]. done.
Qed.

(** C10: for an existing announcement and an authorized caller,
    [update_announcement] with an [expiration_date] that is the empty string
    succeeds and stores the empty string, while [create_announcement]
    rejects that payload with 400 and every record it does return has a
    true [expiration_date]; and no update stores a null [expiration_date]:
    the stored entry is either the one from before or a non-null value. *)
Theorem update_accepts_empty_expiration i payload u db body :
  authorized db u →
  announcements_collection db !! i = Some body →
  payload !! "expiration_date" = Some (VStr "") →
  (∃ a db' body',
     update_announcement i payload u db = (Return a, db')
     ∧ ann_expiration_date a = VStr ""
     ∧ announcements_collection db' !! i = Some body'
     ∧ body' !! "expiration_date" = Some (VStr ""))
  ∧ (∀ random,
       rejected_unchanged (create_announcement random payload u db) db 400)
  ∧ (∀ random p a db',
       create_announcement random p u db = (Return a, db') →
       truthy (ann_expiration_date a) = true)
  ∧ (∀ p, ∃ out db' body',
       update_announcement i p u db = (out, db')
       ∧ announcements_collection db' !! i = Some body'
       ∧ (body' !! "expiration_date" = body !! "expiration_date"
          ∨ ∃ v, body' !! "expiration_date" = Some v ∧ v ≠ VNone)).
Proof.
  intros Ha Hi Hexp.
  assert (updatable "expiration_date") as Hk by (right; by right).
  assert (dict_get payload "expiration_date" = VStr "") as Hget
    by (unfold dict_get; by rewrite Hexp).
  assert (∀ p, (update_fields_of p ∪ body) !! "expiration_date"
               = if is_not_None (dict_get p "expiration_date")
                 then Some (dict_get p "expiration_date")
                 else body !! "expiration_date") as Hafter.
  { intros p. by rewrite lookup_after_set, decide_True. }
  split; [|split; [|split]].
  - rewrite (update_authorized _ _ _ _ Ha), Hi.
    destruct (dict_is_empty (update_fields_of payload)) eqn:He.
    { pose proof (proj1 (update_fields_empty payload) He _ Hk) as Hnone.
      rewrite Hnone in Hget. discriminate. }
    eexists _, _, (update_fields_of payload ∪ body).
    split; [reflexivity|].
    assert ((update_fields_of payload ∪ body) !! "expiration_date"
            = Some (VStr "")) as Hb by (by rewrite Hafter, Hget).
    split; [|split; [apply lookup_insert_eq|done]].
    cbn [_serialize ann_expiration_date]. unfold doc_get, dict_get.
    cbn [entries]. by rewrite Hb.
  - intros random.
    apply (create_rejects_iff random payload u db Ha). by rewrite Hget.
  - intros random p a db'. apply created_expiration_truthy.
  - intros p. rewrite (update_authorized _ _ _ _ Ha), Hi.
    destruct (dict_is_empty (update_fields_of p)).
    { exists (Raise (HTTPException 400 "No update fields provided")), db, body.
      auto. }
    eexists _, _, (update_fields_of p ∪ body). split; [reflexivity|].
    split; [apply lookup_insert_eq|]. rewrite Hafter.
    destruct (is_not_None (dict_get p "expiration_date")) eqn:Hnn; [|by left].
    right. eexists. split; [done|]. intros Hv. by rewrite Hv in Hnn.
Qed.

Lemma update_accepts_empty_expiration_witness :
  ∃ a db' body',
    update_announcement "a1" {[ "expiration_date" := VStr "" ]}
      (Some "mrodriguez") sample_db = (Return a, db')
    ∧ ann_expiration_date a = VStr ""
    ∧ announcements_collection db' !! "a1" = Some body'
    ∧ body' !! "expiration_date" = Some (VStr "").
Proof.
  exact (proj1 (update_accepts_empty_expiration "a1"
                  {[ "expiration_date" := VStr "" ]} (Some "mrodriguez")
                  sample_db sample_body sample_authorized eq_refl eq_refl)).
Defined.

(** ** Worked examples *)

Example uuid_str_zero :
  uuid_str (uuid4 0) = "00000000-0000-4000-8000-000000000000".
Proof. vm_compute. reflexivity. Qed.

Example uuid_str_ones :
  uuid_str (uuid4 (2 ^ 128 - 1)) = "ffffffff-ffff-4fff-bfff-ffffffffffff".
Proof. vm_compute. reflexivity. Qed.

Example isoformat_sample :
  isoformat {| year := 2026; month := 3; day := 9 |} = "2026-03-09".
Proof. vm_compute. reflexivity. Qed.

(** An announcement created with an expiration date in the past is listed
    by [get_all_announcements] and not by [get_active_announcements]. *)
Example expired_is_listed_only_by_all :
  let created :=
    create_announcement 7 {[ "expiration_date" := VStr "2020-01-01" ]}
      (Some "mrodriguez") sample_db in
  let today := {| year := 2026; month := 11; day := 3 |} in
  ann_id <$> (match (get_active_announcements today created.2).1 with
              | Return l => l
              | Raise _ => []
              end) = ["a1"]
  ∧ ann_id <$> (match (get_all_announcements created.2).1 with
                | Return l => l
                | Raise _ => []
                end) = ["00000000-0000-4000-8000-000000000007"; "a1"].
Proof. vm_compute. split; reflexivity. Qed.

(** ** Further properties of the handlers *)

Lemma get_all_run db : get_all_announcements db = (Return (listing db), db).
Proof. reflexivity. Qed.

Lemma get_active_run clock db :
  get_active_announcements clock db = (Return (active_listing clock db), db).
Proof. reflexivity. Qed.

(** X1: no handler ever changes the teachers collection, whatever the
    caller, the payload and the outcome. *)
Theorem teachers_never_change random clock i payload u db :
  teachers_collection (get_active_announcements clock db).2
  = teachers_collection db
  ∧ teachers_collection (get_all_announcements db).2 = teachers_collection db
  ∧ teachers_collection (create_announcement random payload u db).2
    = teachers_collection db
  ∧ teachers_collection (update_announcement i payload u db).2
    = teachers_collection db
  ∧ teachers_collection (delete_announcement i u db).2
    = teachers_collection db.
Proof.
  split; [done|]. split; [done|].
  destruct (authorized_or_not db u) as [Ha|Hn].
  - rewrite (create_authorized _ _ _ _ Ha), (update_authorized _ _ _ _ Ha),
      (delete_authorized _ _ _ Ha).
    repeat split.
    + destruct (truthy _); [|done].
      by destruct (announcements_collection db !! _).
    + destruct (announcements_collection db !! i); [|done].
      by destruct (dict_is_empty _).
    + by destruct (announcements_collection db !! i).
  - destruct (create_unauthorized random payload u db Hn) as [d1 ->].
    destruct (update_unauthorized i payload u db Hn) as [d2 ->].
    destruct (delete_unauthorized i u db Hn) as [d3 ->]. done.
Qed.

Lemma authorized_with_announcements c db u :
  authorized (with_announcements c db) u ↔ authorized db u.
Proof. reflexivity. Qed.

Lemma set_twice (fields body : gmap string value) :
  fields ∪ (fields ∪ body) = fields ∪ body.
Proof. by rewrite (assoc_L (∪)), (idemp_L (∪)). Qed.

(** X2: [update_announcement] is idempotent: running the same update again
    on the database the first run leaves gives the same outcome and the
    same database. *)
Theorem update_idempotent i payload u db :
  update_announcement i payload u (update_announcement i payload u db).2
  = update_announcement i payload u db.
Proof.
  destruct (authorized_or_not db u) as [Ha|Hn].
  - rewrite (update_authorized _ _ _ _ Ha).
    destruct (announcements_collection db !! i) as [body|] eqn:Hi.
    + destruct (dict_is_empty (update_fields_of payload)) eqn:He.
      * cbn [snd]. by rewrite (update_authorized _ _ _ _ Ha), Hi, He.
      * cbn [snd]. rewrite update_authorized; [|done].
        cbn [with_announcements announcements_collection].
        rewrite lookup_insert_eq, He, set_twice, insert_insert_eq. done.
    + cbn [snd]. by rewrite (update_authorized _ _ _ _ Ha), Hi.
  - destruct (update_unauthorized i payload u db Hn) as [detail Hrun].
    rewrite Hrun. cbn [snd]. by rewrite Hrun.
Qed.

Lemma is_not_None_false v : is_not_None v = false ↔ v = VNone.
Proof. by destruct v. Qed.

Lemma update_fields_nonempty payload :
  dict_is_empty (update_fields_of payload) = false ↔
  ∃ k, updatable k ∧ dict_get payload k ≠ VNone.
Proof.
  split.
  - intros He.
    destruct (is_not_None (dict_get payload "text")) eqn:H1.
    { exists "text". split; [by left|]. intros Hv. by rewrite Hv in H1. }
    destruct (is_not_None (dict_get payload "start_date")) eqn:H2.
    { exists "start_date". split; [right; by left|].
      intros Hv. by rewrite Hv in H2. }
    destruct (is_not_None (dict_get payload "expiration_date")) eqn:H3.
    { exists "expiration_date". split; [right; by right|].
      intros Hv. by rewrite Hv in H3. }
    apply is_not_None_false in H1, H2, H3.
    assert (dict_is_empty (update_fields_of payload) = true) as Ht.
    { apply update_fields_empty. by intros k [ -> | [ -> | -> ] ]. }
    congruence.
  - intros (k & Hk & Hv).
    destruct (dict_is_empty (update_fields_of payload)) eqn:He; [|done].
    destruct Hv. by apply (proj1 (update_fields_empty payload) He).
Qed.

(** X3: for an authorized caller the outcome of [update_announcement] is
    decided by the store and the payload alone: 404 exactly when the id is
    not stored, 400 exactly when it is stored and the payload has no
    non-null [text], [start_date] or [expiration_date], success exactly
    when it is stored and the payload has one. *)
Theorem update_outcome i payload u db :
  authorized db u →
  (fails_with (update_announcement i payload u db) 404
   ↔ announcements_collection db !! i = None)
  ∧ (fails_with (update_announcement i payload u db) 400
     ↔ is_Some (announcements_collection db !! i)
       ∧ ∀ k, updatable k → dict_get payload k = VNone)
  ∧ (succeeds (update_announcement i payload u db)
     ↔ is_Some (announcements_collection db !! i)
       ∧ ∃ k, updatable k ∧ dict_get payload k ≠ VNone).
Proof.
  intros Ha. rewrite (update_authorized _ _ _ _ Ha).
  unfold fails_with, succeeds.
  destruct (announcements_collection db !! i) as [body|] eqn:Hi.
  - destruct (dict_is_empty (update_fields_of payload)) eqn:He; cbn [fst].
    + pose proof (proj1 (update_fields_empty payload) He) as Hnone.
      split; [|split]; split.
      * intros [detail Hd]. congruence.
      * done.
      * intros _. split; [by eexists|done].
      * intros _. by eexists.
      * intros [a Hd]. congruence.
      * intros [_ (k & Hk & Hv)]. destruct Hv. by apply Hnone.
    + pose proof (proj1 (update_fields_nonempty payload) He) as Hsome.
      split; [|split]; split.
      * intros [detail Hd]. congruence.
      * done.
      * intros [detail Hd]. congruence.
      * intros [_ Hnone]. destruct Hsome as (k & Hk & Hv).
        destruct Hv. by apply Hnone.
      * intros _. split; [by eexists|done].
      * intros _. by eexists.
  - cbn [fst]. split; [|split]; split.
    + done.
    + intros _. by eexists.
    + intros [detail Hd]. congruence.
    + intros [[body Hb] _]. done.
    + intros [a Hd]. congruence.
    + intros [[body Hb] _]. done.
Qed.

Lemma update_outcome_witness :
  (fails_with
     (update_announcement "a1" {[ "text" := VNone ]} (Some "mrodriguez")
        sample_db) 404
   ↔ announcements_collection sample_db !! "a1" = None)
  ∧ (fails_with
       (update_announcement "a1" {[ "text" := VNone ]} (Some "mrodriguez")
          sample_db) 400
     ↔ is_Some (announcements_collection sample_db !! "a1")
       ∧ ∀ k, updatable k → dict_get {[ "text" := VNone ]} k = VNone)
  ∧ (succeeds
       (update_announcement "a1" {[ "text" := VNone ]} (Some "mrodriguez")
          sample_db)
     ↔ is_Some (announcements_collection sample_db !! "a1")
       ∧ ∃ k, updatable k ∧ dict_get {[ "text" := VNone ]} k ≠ VNone).
Proof. apply update_outcome, sample_authorized. Defined.

(** X4: for an authorized caller [delete_announcement] fails with 404
    exactly when the id is not stored, and returns its confirmation exactly
    when it is. *)
Theorem delete_outcome i u db :
  authorized db u →
  (fails_with (delete_announcement i u db) 404
   ↔ announcements_collection db !! i = None)
  ∧ (succeeds (delete_announcement i u db)
     ↔ is_Some (announcements_collection db !! i)).
Proof.
  intros Ha. rewrite (delete_authorized _ _ _ Ha).
  unfold fails_with, succeeds.
  destruct (announcements_collection db !! i) as [body|]; cbn [fst];
    split; split.
  - intros [detail Hd]. congruence.
  - done.
  - intros _. by eexists.
  - intros _. by eexists.
  - done.
  - intros _. by eexists.
  - intros [a Hd]. congruence.
  - intros [body Hb]. done.
Qed.

Lemma delete_outcome_witness :
  (fails_with (delete_announcement "gone" (Some "mrodriguez") sample_db) 404
   ↔ announcements_collection sample_db !! "gone" = None)
  ∧ (succeeds (delete_announcement "gone" (Some "mrodriguez") sample_db)
     ↔ is_Some (announcements_collection sample_db !! "gone")).
Proof. apply delete_outcome, sample_authorized. Defined.

(** The database a handler leaves, whatever the caller and the outcome. *)

Lemma create_leaves random payload u db :
  (create_announcement random payload u db).2 = db
  ∨ (truthy (dict_get payload "expiration_date") = true
     ∧ announcements_collection db !! uuid_str (uuid4 random) = None
     ∧ create_announcement random payload u db
       = (Return (_serialize {| _id := uuid_str (uuid4 random);
                                entries := new_entries payload u |}),
          with_announcements
            (<[uuid_str (uuid4 random) := new_entries payload u]>
               (announcements_collection db)) db)).
Proof.
  destruct (authorized_or_not db u) as [Ha|Hn].
  - rewrite (create_authorized _ _ _ _ Ha).
    destruct (truthy _); [|by left].
    destruct (announcements_collection db !! _); [by left|by right].
  - destruct (create_unauthorized random payload u db Hn) as [detail ->].
    by left.
Qed.

Lemma update_leaves i payload u db :
  (update_announcement i payload u db).2 = db
  ∨ ∃ body,
      announcements_collection db !! i = Some body
      ∧ update_announcement i payload u db
        = (Return (_serialize {| _id := i;
                                 entries := update_fields_of payload ∪ body |}),
           with_announcements
             (<[i := update_fields_of payload ∪ body]>
                (announcements_collection db)) db).
Proof.
  destruct (authorized_or_not db u) as [Ha|Hn].
  - rewrite (update_authorized _ _ _ _ Ha).
    destruct (announcements_collection db !! i) as [body|]; [|by left].
    destruct (dict_is_empty _); [by left|]. right. by exists body.
  - destruct (update_unauthorized i payload u db Hn) as [detail ->].
    by left.
Qed.

Lemma delete_leaves i u db :
  (delete_announcement i u db).2 = db
  ∨ (is_Some (announcements_collection db !! i)
     ∧ delete_announcement i u db
       = (Return {[ "message" := VStr "Announcement deleted" ]},
          with_announcements (delete i (announcements_collection db)) db)).
Proof.
  destruct (authorized_or_not db u) as [Ha|Hn].
  - rewrite (delete_authorized _ _ _ Ha).
    destruct (announcements_collection db !! i) as [body|]; [|by left].
    right. split; [by eexists|done].
  - destruct (delete_unauthorized i u db Hn) as [detail ->]. by left.
Qed.

Lemma truthy_not_None v : truthy v = true → v ≠ VNone.
Proof. by intros Ht ->. Qed.

Lemma sample_expiration_dates_set : expiration_dates_set sample_db.
Proof.
  intros i body Hl. unfold sample_db in Hl.
  cbn [announcements_collection] in Hl.
  apply lookup_singleton_Some in Hl as [_ <-].
  exists (VStr "2099-01-01"). split; [reflexivity|discriminate].
Qed.

(** X5: the non-null [expiration_date] of the data model is an invariant of
    the three writing handlers: if every stored announcement has one before
    a call of [create_announcement], [update_announcement] or
    [delete_announcement], every stored announcement has one after it,
    whatever the arguments and the outcome. *)
Theorem expiration_dates_stay_set random i payload u db :
  expiration_dates_set db →
  expiration_dates_set (create_announcement random payload u db).2
  ∧ expiration_dates_set (update_announcement i payload u db).2
  ∧ expiration_dates_set (delete_announcement i u db).2.
Proof.
  intros Hinv. split; [|split].
  - destruct (create_leaves random payload u db) as [->|(Ht & _ & ->)];
      [done|].
    intros j body. cbn [snd with_announcements announcements_collection].
    rewrite lookup_insert. case_decide as Hj; [|apply Hinv].
    intros [= <-]. exists (dict_get payload "expiration_date").
    split; [done|]. by apply truthy_not_None.
  - destruct (update_leaves i payload u db) as [->|(body & Hi & ->)]; [done|].
    intros j body'. cbn [snd with_announcements announcements_collection].
    rewrite lookup_insert. case_decide as Hj; [|apply Hinv].
    intros [= <-]. rewrite lookup_after_set, decide_True by (right; by right).
    destruct (is_not_None (dict_get payload "expiration_date")) eqn:Hnn.
    + eexists. split; [done|]. intros Hv. by rewrite Hv in Hnn.
    + by apply (Hinv i).
  - destruct (delete_leaves i u db) as [->|(_ & ->)]; [done|].
    intros j body. cbn [snd with_announcements announcements_collection].
    intros [_ Hj]%lookup_delete_Some. by apply (Hinv j).
Qed.

Lemma expiration_dates_stay_set_witness :
  expiration_dates_set
    (create_announcement 7 {[ "expiration_date" := VStr "2030-06-30" ]}
       (Some "mrodriguez") sample_db).2
  ∧ expiration_dates_set
      (update_announcement "a1" {[ "expiration_date" := VStr "2030-06-30" ]}
         (Some "mrodriguez") sample_db).2
  ∧ expiration_dates_set
      (delete_announcement "a1" (Some "mrodriguez") sample_db).2.
Proof.
  exact (expiration_dates_stay_set 7 "a1"
           {[ "expiration_date" := VStr "2030-06-30" ]} (Some "mrodriguez")
           sample_db sample_expiration_dates_set).
Defined.

(** X6: [update_announcement] never removes an entry of the stored document
    and never turns a non-null entry into null, whatever the caller, the
    payload and the outcome. *)
Theorem update_never_clears i payload u db body :
  announcements_collection db !! i = Some body →
  ∃ body',
    announcements_collection (update_announcement i payload u db).2 !! i
    = Some body'
    ∧ (∀ k, is_Some (body !! k) → is_Some (body' !! k))
    ∧ (∀ k v, body !! k = Some v → v ≠ VNone →
              ∃ v', body' !! k = Some v' ∧ v' ≠ VNone).
Proof.
  intros Hi.
  destruct (update_leaves i payload u db) as [->|(body0 & Hi0 & ->)].
  { exists body. split; [done|]. split; [done|]. intros k v Hk Hv. eauto. }
  assert (body0 = body) as -> by congruence.
  exists (update_fields_of payload ∪ body).
  cbn [snd with_announcements announcements_collection].
  split; [apply lookup_insert_eq|]. split.
  - intros k Hk. rewrite lookup_after_set.
    case_decide; [|done]. by destruct (is_not_None _).
  - intros k v Hk Hv. rewrite lookup_after_set.
    case_decide; [|eauto].
    destruct (is_not_None (dict_get payload k)) eqn:Hnn; [|eauto].
    eexists. split; [done|]. intros Hv'. by rewrite Hv' in Hnn.
Qed.

Lemma update_never_clears_witness :
  ∃ body',
    announcements_collection
      (update_announcement "a1" {[ "start_date" := VNone ]}
         (Some "mrodriguez") sample_db).2 !! "a1"
    = Some body'
    ∧ (∀ k, is_Some (sample_body !! k) → is_Some (body' !! k))
    ∧ (∀ k v, sample_body !! k = Some v → v ≠ VNone →
              ∃ v', body' !! k = Some v' ∧ v' ≠ VNone).
Proof. apply update_never_clears. reflexivity. Defined.

(** ** Writes as seen through [get_all_announcements] *)

Lemma elem_of_listing db a :
  a ∈ listing db ↔
  ∃ i body, announcements_collection db !! i = Some body
            ∧ a = _serialize {| _id := i; entries := body |}.
Proof.
  unfold listing. rewrite list_elem_of_fmap. split.
  - intros [d [-> Hd]]. apply elem_of_find_sorted in Hd as [Hl _].
    exists (_id d), (entries d). split; [done|]. by destruct d.
  - intros (i & body & Hl & ->). eexists. split; [reflexivity|].
    by apply elem_of_find_sorted.
Qed.

Lemma length_listing db :
  length (listing db) = size (announcements_collection db).
Proof. unfold listing. by rewrite length_fmap, length_find_all. Qed.

Lemma create_succeeds_inv random payload u db a db' :
  create_announcement random payload u db = (Return a, db') →
  authorized db u
  ∧ truthy (dict_get payload "expiration_date") = true
  ∧ announcements_collection db !! uuid_str (uuid4 random) = None
  ∧ a = _serialize {| _id := uuid_str (uuid4 random);
                      entries := new_entries payload u |}
  ∧ db' = with_announcements
            (<[uuid_str (uuid4 random) := new_entries payload u]>
               (announcements_collection db)) db.
Proof.
  intros Hrun. destruct (authorized_or_not db u) as [Ha|Hn].
  - rewrite (create_authorized _ _ _ _ Ha) in Hrun.
    destruct (truthy _); [|done].
    destruct (announcements_collection db !! _) eqn:Hfresh; [done|].
    by injection Hrun as <- <-.
  - destruct (create_unauthorized random payload u db Hn) as [detail Hd].
    congruence.
Qed.

Lemma update_succeeds_inv i payload u db a db' :
  update_announcement i payload u db = (Return a, db') →
  ∃ body,
    announcements_collection db !! i = Some body
    ∧ a = _serialize {| _id := i;
                        entries := update_fields_of payload ∪ body |}
    ∧ db' = with_announcements
              (<[i := update_fields_of payload ∪ body]>
                 (announcements_collection db)) db.
Proof.
  intros Hrun.
  destruct (update_leaves i payload u db) as [Hsame|(body & Hi & Heq)].
  - destruct (authorized_or_not db u) as [Ha|Hn].
    + rewrite (update_authorized _ _ _ _ Ha) in Hrun.
      destruct (announcements_collection db !! i) as [body|]; [|done].
      destruct (dict_is_empty _); [done|].
      exists body. by injection Hrun as <- <-.
    + destruct (update_unauthorized i payload u db Hn) as [detail Hd].
      congruence.
  - exists body. rewrite Heq in Hrun. by injection Hrun as <- <-.
Qed.

Lemma delete_succeeds_inv i u db m db' :
  delete_announcement i u db = (Return m, db') →
  authorized db u
  ∧ is_Some (announcements_collection db !! i)
  ∧ db' = with_announcements (delete i (announcements_collection db)) db.
Proof.
  intros Hrun. destruct (authorized_or_not db u) as [Ha|Hn].
  - rewrite (delete_authorized _ _ _ Ha) in Hrun.
    destruct (announcements_collection db !! i) as [body|] eqn:Hi; [|done].
    split; [done|]. split; [by eexists|]. by injection Hrun as _ <-.
  - destruct (delete_unauthorized i u db Hn) as [detail Hd]. congruence.
Qed.

(** X7: a record that [create_announcement] returns is listed by
    [get_all_announcements] in the resulting database, next to every record
    listed before; the listing grows by exactly one. *)
Theorem created_is_listed random payload u db a db' :
  create_announcement random payload u db = (Return a, db') →
  ∃ before after,
    get_all_announcements db = (Return before, db)
    ∧ get_all_announcements db' = (Return after, db')
    ∧ a ∈ after
    ∧ (∀ b, b ∈ before → b ∈ after)
    ∧ length after = S (length before).
Proof.
  intros (_ & _ & Hfresh & -> & ->)%create_succeeds_inv.
  exists (listing db), (listing (with_announcements
    (<[uuid_str (uuid4 random) := new_entries payload u]>
       (announcements_collection db)) db)).
  split; [done|]. split; [done|]. split; [|split].
  - apply elem_of_listing. eexists _, _. split; [|done].
    cbn [with_announcements announcements_collection]. apply lookup_insert_eq.
  - intros b (j & body & Hj & ->)%elem_of_listing. apply elem_of_listing.
    exists j, body. split; [|done].
    cbn [with_announcements announcements_collection].
    rewrite lookup_insert_ne; [done|]. intros <-. congruence.
  - rewrite !length_listing.
    cbn [with_announcements announcements_collection].
    by apply map_size_insert_None.
Qed.

Lemma created_is_listed_witness :
  ∃ before after,
    get_all_announcements sample_db = (Return before, sample_db)
    ∧ get_all_announcements
        (create_announcement 7 {[ "expiration_date" := VStr "2030-06-30" ]}
           (Some "mrodriguez") sample_db).2
      = (Return after,
         (create_announcement 7 {[ "expiration_date" := VStr "2030-06-30" ]}
            (Some "mrodriguez") sample_db).2)
    ∧ _serialize
        {| _id := uuid_str (uuid4 7);
           entries := new_entries {[ "expiration_date" := VStr "2030-06-30" ]}
                        (Some "mrodriguez") |} ∈ after
    ∧ (∀ b, b ∈ before → b ∈ after)
    ∧ length after = S (length before).
Proof.
  apply (created_is_listed 7 {[ "expiration_date" := VStr "2030-06-30" ]}
           (Some "mrodriguez") sample_db).
  vm_compute. reflexivity.
Defined.

(** X8: after a successful [delete_announcement] the listing of
    [get_all_announcements] is the one from before without the record of
    the deleted id, and it is shorter by exactly one. *)
Theorem deleted_is_unlisted i u db m db' :
  delete_announcement i u db = (Return m, db') →
  ∃ before after,
    get_all_announcements db = (Return before, db)
    ∧ get_all_announcements db' = (Return after, db')
    ∧ (∀ b, b ∈ after ↔ b ∈ before ∧ ann_id b ≠ i)
    ∧ S (length after) = length before.
Proof.
  intros (_ & [body Hi] & ->)%delete_succeeds_inv.
  exists (listing db),
    (listing (with_announcements (delete i (announcements_collection db)) db)).
  split; [done|]. split; [done|]. split.
  - intros b. rewrite !elem_of_listing.
    cbn [with_announcements announcements_collection]. split.
    + intros (j & bd & [Hne Hj]%lookup_delete_Some & ->).
      split; [by exists j, bd|]. cbn. congruence.
    + intros [(j & bd & Hj & ->) Hne]. exists j, bd. split; [|done].
      apply lookup_delete_Some. split; [|done]. intros <-. by apply Hne.
  - rewrite !length_listing.
    cbn [with_announcements announcements_collection].
    rewrite map_size_delete, Hi.
    assert (size (announcements_collection db) ≠ 0%nat) as Hnz.
    { intros Hz. apply map_size_empty_iff in Hz. rewrite Hz in Hi.
      by rewrite lookup_empty in Hi. }
    simpl. lia.
Qed.

Lemma deleted_is_unlisted_witness :
  ∃ before after,
    get_all_announcements sample_db = (Return before, sample_db)
    ∧ get_all_announcements
        (delete_announcement "a1" (Some "mrodriguez") sample_db).2
      = (Return after,
         (delete_announcement "a1" (Some "mrodriguez") sample_db).2)
    ∧ (∀ b, b ∈ after ↔ b ∈ before ∧ ann_id b ≠ "a1")
    ∧ S (length after) = length before.
Proof.
  apply (deleted_is_unlisted "a1" (Some "mrodriguez") sample_db
           {[ "message" := VStr "Announcement deleted" ]}).
  vm_compute. reflexivity.
Defined.

(** X9: the record [update_announcement] returns is the one
    [get_all_announcements] lists under that id afterwards; the records of
    all other ids are listed as before, and the listing keeps its length. *)
Theorem updated_is_listed i payload u db a db' :
  update_announcement i payload u db = (Return a, db') →
  ∃ before after,
    get_all_announcements db = (Return before, db)
    ∧ get_all_announcements db' = (Return after, db')
    ∧ ann_id a = i
    ∧ (∀ b, ann_id b = i → (b ∈ after ↔ b = a))
    ∧ (∀ b, ann_id b ≠ i → (b ∈ after ↔ b ∈ before))
    ∧ length after = length before.
Proof.
  intros (body & Hi & -> & ->)%update_succeeds_inv.
  exists (listing db),
    (listing (with_announcements
       (<[i := update_fields_of payload ∪ body]> (announcements_collection db))
       db)).
  split; [done|]. split; [done|]. split; [done|]. split; [|split].
  - intros b Hb. rewrite elem_of_listing.
    cbn [with_announcements announcements_collection]. split.
    + intros (j & bd & Hj & ->). cbn in Hb. subst j.
      rewrite lookup_insert_eq in Hj. by injection Hj as <-.
    + intros ->. eexists _, _. split; [apply lookup_insert_eq|done].
  - intros b Hb. rewrite !elem_of_listing.
    cbn [with_announcements announcements_collection].
    split; intros (j & bd & Hj & ->); cbn in Hb; exists j, bd;
      (split; [|done]).
    + by rewrite lookup_insert_ne in Hj.
    + by rewrite lookup_insert_ne.
  - rewrite !length_listing.
    cbn [with_announcements announcements_collection].
    apply map_size_insert_Some. by eexists.
Qed.

Lemma updated_is_listed_witness :
  ∃ before after,
    get_all_announcements sample_db = (Return before, sample_db)
    ∧ get_all_announcements
        (update_announcement "a1" {[ "text" := VStr "new" ]}
           (Some "mrodriguez") sample_db).2
      = (Return after,
         (update_announcement "a1" {[ "text" := VStr "new" ]}
            (Some "mrodriguez") sample_db).2)
    ∧ ann_id (_serialize
                {| _id := "a1";
                   entries := update_fields_of {[ "text" := VStr "new" ]}
                              ∪ sample_body |}) = "a1"
    ∧ (∀ b, ann_id b = "a1" →
            (b ∈ after ↔
             b = _serialize
                   {| _id := "a1";
                      entries := update_fields_of {[ "text" := VStr "new" ]}
                                 ∪ sample_body |}))
    ∧ (∀ b, ann_id b ≠ "a1" → (b ∈ after ↔ b ∈ before))
    ∧ length after = length before.
Proof.
  apply (updated_is_listed "a1" {[ "text" := VStr "new" ]}
           (Some "mrodriguez") sample_db).
  vm_compute. reflexivity.
Defined.

(** X10: deleting the record [create_announcement] has just returned, by
    the same caller, succeeds and gives back the database from before the
    create. *)
Theorem create_then_delete_restores random payload u db a db' :
  create_announcement random payload u db = (Return a, db') →
  delete_announcement (ann_id a) u db'
  = (Return {[ "message" := VStr "Announcement deleted" ]}, db).
Proof.
  intros (Ha & _ & Hfresh & -> & ->)%create_succeeds_inv.
  cbn [_serialize ann_id _id].
  rewrite delete_authorized by done.
  cbn [with_announcements announcements_collection].
  rewrite lookup_insert_eq, delete_insert_id by done.
  cbn [teachers_collection]. by destruct db.
Qed.

Lemma create_then_delete_restores_witness :
  delete_announcement
    (ann_id (_serialize
               {| _id := uuid_str (uuid4 7);
                  entries := new_entries
                               {[ "expiration_date" := VStr "2030-06-30" ]}
                               (Some "mrodriguez") |}))
    (Some "mrodriguez")
    (create_announcement 7 {[ "expiration_date" := VStr "2030-06-30" ]}
       (Some "mrodriguez") sample_db).2
  = (Return {[ "message" := VStr "Announcement deleted" ]}, sample_db).
Proof.
  apply (create_then_delete_restores 7
           {[ "expiration_date" := VStr "2030-06-30" ]}).
  vm_compute. reflexivity.
Defined.

(** ** Writes as seen through [get_active_announcements] *)

Lemma elem_of_active_listing clock db a :
  a ∈ active_listing clock db ↔
  ∃ i body, announcements_collection db !! i = Some body
            ∧ is_active (isoformat clock) body
            ∧ a = _serialize {| _id := i; entries := body |}.
Proof.
  unfold active_listing. rewrite list_elem_of_fmap. split.
  - intros [d [-> Hd]]. apply elem_of_find_sorted in Hd as [Hl Hq].
    exists (_id d), (entries d). split; [done|].
    split; [by apply matches_active_query|]. by destruct d.
  - intros (i & body & Hl & Hact & ->). eexists. split; [reflexivity|].
    apply elem_of_find_sorted. split; [done|]. by apply matches_active_query.
Qed.

Lemma new_entries_active today payload u :
  is_active today (new_entries payload u) ↔
  (∃ e, dict_get payload "expiration_date" = VStr e
        ∧ String.leb today e = true)
  ∧ (dict_get payload "start_date" = VNone
     ∨ ∃ s, dict_get payload "start_date" = VStr s
            ∧ String.leb s today = true).
Proof.
  unfold is_active.
  assert (new_entries payload u !! "expiration_date"
          = Some (dict_get payload "expiration_date")) as -> by reflexivity.
  assert (new_entries payload u !! "start_date"
          = Some (dict_get payload "start_date")) as -> by reflexivity.
  split.
  - intros [(e & [= He] & Hle) Hs]. split; [by exists e|].
    destruct Hs as [Hs|[[= Hs]|(s & [= Hs] & Hle')]]; [done|by left|].
    right. by exists s.
  - intros [(e & He & Hle) Hs]. split; [exists e; by rewrite He|].
    destruct Hs as [Hs|(s & Hs & Hle')].
    + right. left. by rewrite Hs.
    + right. right. exists s. by rewrite Hs.
Qed.

(** X11: on any day, the record [create_announcement] has just returned is
    listed by [get_active_announcements] exactly when the payload's
    [expiration_date] is a string [>=] that day's ISO date and its
    [start_date] is missing, null, or a string [<=] it; in particular a
    record created already expired is not listed. *)
Theorem created_is_active_iff random payload u db a db' clock :
  create_announcement random payload u db = (Return a, db') →
  ∃ act,
    get_active_announcements clock db' = (Return act, db')
    ∧ (a ∈ act ↔
       (∃ e, dict_get payload "expiration_date" = VStr e
             ∧ String.leb (isoformat clock) e = true)
       ∧ (dict_get payload "start_date" = VNone
          ∨ ∃ s, dict_get payload "start_date" = VStr s
                 ∧ String.leb s (isoformat clock) = true)).
Proof.
  intros (_ & _ & Hfresh & -> & ->)%create_succeeds_inv.
  eexists. split; [apply get_active_run|].
  rewrite elem_of_active_listing, <- (new_entries_active _ payload u).
  cbn [with_announcements announcements_collection]. split.
  - intros (j & body & Hj & Hact & Heq).
    assert (j = uuid_str (uuid4 random)) as ->
      by (apply (f_equal ann_id) in Heq; by cbn in Heq).
    rewrite lookup_insert_eq in Hj. by injection Hj as <-.
  - intros Hact. eexists _, _. split; [apply lookup_insert_eq|done].
Qed.

Lemma created_is_active_iff_witness :
  ∃ act,
    get_active_announcements {| year := 2026; month := 11; day := 3 |}
      (create_announcement 7 {[ "expiration_date" := VStr "2020-01-01" ]}
         (Some "mrodriguez") sample_db).2
    = (Return act,
       (create_announcement 7 {[ "expiration_date" := VStr "2020-01-01" ]}
          (Some "mrodriguez") sample_db).2)
    ∧ (_serialize
         {| _id := uuid_str (uuid4 7);
            entries := new_entries {[ "expiration_date" := VStr "2020-01-01" ]}
                         (Some "mrodriguez") |} ∈ act ↔
       (∃ e, dict_get {[ "expiration_date" := VStr "2020-01-01" ]}
               "expiration_date" = VStr e
             ∧ String.leb
                 (isoformat {| year := 2026; month := 11; day := 3 |}) e
               = true)
       ∧ (dict_get {[ "expiration_date" := VStr "2020-01-01" ]} "start_date"
          = VNone
          ∨ ∃ s, dict_get {[ "expiration_date" := VStr "2020-01-01" ]}
                   "start_date" = VStr s
                 ∧ String.leb s
                     (isoformat {| year := 2026; month := 11; day := 3 |})
                   = true)).
Proof.
  apply (created_is_active_iff 7 {[ "expiration_date" := VStr "2020-01-01" ]}
           (Some "mrodriguez") sample_db).
  vm_compute. reflexivity.
Defined.

(** ** ISO dates compare as dates *)

Lemma string_compare_refl s : String.compare s s = Eq.
Proof.
  induction s as [|c s IH]; [done|]. simpl.
  by rewrite ascii_compare_refl.
Qed.

Lemma compare_app_same_length (a1 a2 b1 b2 : string) :
  String.length a1 = String.length a2 →
  String.compare (a1 +:+ b1) (a2 +:+ b2)
  = match String.compare a1 a2 with
    | Eq => String.compare b1 b2
    | c => c
    end.
Proof.
  revert a2. induction a1 as [|c1 a1 IH]; intros [|c2 a2]; simpl; try done.
  intros [= Hlen]. rewrite (IH _ Hlen).
  by destruct (Ascii.compare c1 c2).
Qed.

Lemma length_zero_padded w n : String.length (zero_padded w n) = w.
Proof.
  revert n. induction w as [|w IH]; intros n; simpl; [done|].
  rewrite length_string_app, IH. simpl. lia.
Qed.

Lemma digit_compare (a b : nat) :
  Ascii.compare (digit a) (digit b) = Nat.compare (a mod 10) (b mod 10).
Proof.
  unfold Ascii.compare, digit.
  rewrite N2Nat.inj_compare.
  change (N.to_nat (N_of_ascii ?x)) with (nat_of_ascii x).
  pose proof (Nat.mod_upper_bound a 10 ltac:(lia)).
  pose proof (Nat.mod_upper_bound b 10 ltac:(lia)).
  rewrite !nat_ascii_embedding by lia.
  destruct (Nat.compare_spec (a mod 10) (b mod 10));
    [apply Nat.compare_eq_iff|apply Nat.compare_lt_iff|apply Nat.compare_gt_iff];
    lia.
Qed.

Lemma compare_by_digits (n m : nat) :
  match Nat.compare (n / 10) (m / 10) with
  | Eq => Nat.compare (n mod 10) (m mod 10)
  | c => c
  end = Nat.compare n m.
Proof.
  pose proof (Nat.div_mod_eq n 10). pose proof (Nat.div_mod_eq m 10).
  pose proof (Nat.mod_upper_bound n 10 ltac:(lia)).
  pose proof (Nat.mod_upper_bound m 10 ltac:(lia)).
  destruct (Nat.compare_spec (n / 10) (m / 10)) as [He|Hl|Hg].
  - destruct (Nat.compare_spec (n mod 10) (m mod 10)); symmetry;
      [apply Nat.compare_eq_iff|apply Nat.compare_lt_iff
      |apply Nat.compare_gt_iff]; lia.
  - symmetry. apply Nat.compare_lt_iff. lia.
  - symmetry. apply Nat.compare_gt_iff. lia.
Qed.

Lemma compare_one_character c1 c2 :
  String.compare (String c1 "") (String c2 "") = Ascii.compare c1 c2.
Proof. simpl. by destruct (Ascii.compare c1 c2). Qed.

Lemma zero_padded_compare w (n m : nat) :
  (n < 10 ^ w)%nat → (m < 10 ^ w)%nat →
  String.compare (zero_padded w n) (zero_padded w m) = Nat.compare n m.
Proof.
  revert n m. induction w as [|w IH]; intros n m Hn Hm.
  - simpl in Hn, Hm. assert (n = 0%nat) as -> by lia.
    by assert (m = 0%nat) as -> by lia.
  - rewrite Nat.pow_succ_r' in Hn, Hm. cbn [zero_padded].
    rewrite compare_app_same_length by (by rewrite !length_zero_padded).
    rewrite IH by (apply Nat.Div0.div_lt_upper_bound; lia).
    rewrite compare_one_character, digit_compare.
    apply compare_by_digits.
Qed.

Lemma compare_after_dash r1 r2 :
  String.compare ("-" +:+ r1) ("-" +:+ r2) = String.compare r1 r2.
Proof. reflexivity. Qed.

Lemma isoformat_compare d1 d2 :
  printable d1 → printable d2 →
  String.compare (isoformat d1) (isoformat d2)
  = match Nat.compare (year d1) (year d2) with
    | Eq => match Nat.compare (month d1) (month d2) with
            | Eq => Nat.compare (day d1) (day d2)
            | c => c
            end
    | c => c
    end.
Proof.
  intros (Hy1 & Hm1 & Hd1) (Hy2 & Hm2 & Hd2). unfold isoformat.
  rewrite compare_app_same_length by (by rewrite !length_zero_padded).
  rewrite zero_padded_compare, compare_after_dash by done.
  rewrite compare_app_same_length by (by rewrite !length_zero_padded).
  by rewrite zero_padded_compare, compare_after_dash, zero_padded_compare.
Qed.

Lemma lexicographic_leb (y1 m1 d1 y2 m2 d2 : nat) :
  (if match Nat.compare y1 y2 with
      | Eq => match Nat.compare m1 m2 with
              | Eq => Nat.compare d1 d2
              | c => c
              end
      | c => c
      end is Gt then false else true) = true
  ↔ (y1 < y2 ∨ (y1 = y2 ∧ (m1 < m2 ∨ (m1 = m2 ∧ d1 ≤ d2))))%nat.
Proof.
  destruct (Nat.compare_spec y1 y2) as [Hy|Hy|Hy];
    [|split; [lia|done]|split; [done|lia]].
  destruct (Nat.compare_spec m1 m2) as [Hm|Hm|Hm];
    [|split; [lia|done]|split; [done|lia]].
  destruct (Nat.compare_spec d1 d2) as [Hd|Hd|Hd];
    [split; [lia|done]|split; [lia|done]|split; [done|lia]].
Qed.

Lemma isoformat_leb d1 d2 :
  printable d1 → printable d2 →
  String.leb (isoformat d1) (isoformat d2) = true ↔ date_le d1 d2.
Proof.
  intros H1 H2. unfold String.leb, date_le.
  rewrite (isoformat_compare _ _ H1 H2). apply lexicographic_leb.
Qed.

(** X12: on calendar dates the string order of [date.isoformat], which the
    filter of [get_active_announcements] compares with, is the
    chronological order: [isoformat d1 <= isoformat d2] as strings exactly
    when [d1] is not after [d2]. *)
Theorem isoformat_order d1 d2 :
  printable d1 → printable d2 →
  (String.leb (isoformat d1) (isoformat d2) = true ↔ date_le d1 d2).
Proof.
  intros (Hy1 & Hm1 & Hd1) (Hy2 & Hm2 & Hd2).
  unfold String.leb, date_le, isoformat.
  rewrite compare_app_same_length by (by rewrite !length_zero_padded).
  rewrite zero_padded_compare, compare_after_dash by done.
  rewrite compare_app_same_length by (by rewrite !length_zero_padded).
  rewrite zero_padded_compare, compare_after_dash, zero_padded_compare
    by done.
  apply lexicographic_leb.
Qed.

Lemma isoformat_order_witness :
  String.leb (isoformat {| year := 2026; month := 11; day := 3 |})
             (isoformat {| year := 2099; month := 1; day := 1 |}) = true
  ↔ date_le {| year := 2026; month := 11; day := 3 |}
            {| year := 2099; month := 1; day := 1 |}.
Proof.
  apply isoformat_order; unfold printable; cbn [year month day];
    repeat split; apply Nat.ltb_lt; vm_compute; reflexivity.
Defined.

(** X13: an announcement stored with ISO dates is visible inside its
    window: with [expiration_date] the ISO form of the date [last] and
    [start_date] the ISO form of the date [first] (or no [start_date] at
    all), [get_active_announcements] lists it on the day [clock] exactly
    when [clock] is not before [first] and not after [last]. *)
Theorem active_inside_window clock first last i body db :
  printable clock → printable last → from_option printable True first →
  announcements_collection db !! i = Some body →
  body !! "expiration_date" = Some (VStr (isoformat last)) →
  body !! "start_date" = (λ d, VStr (isoformat d)) <$> first →
  ∃ act,
    get_active_announcements clock db = (Return act, db)
    ∧ (_serialize {| _id := i; entries := body |} ∈ act
       ↔ from_option (λ d, date_le d clock) True first ∧ date_le clock last).
Proof.
  intros Hc Hl Hf Hi He Hs. eexists. split; [apply get_active_run|].
  rewrite elem_of_active_listing.
  assert (is_active (isoformat clock) body
          ↔ from_option (λ d, date_le d clock) True first ∧ date_le clock last)
    as <-.
  { unfold is_active. rewrite He, Hs. split.
    - intros [(e & [= <-] & Hle) Hst].
      split; [|by apply isoformat_leb].
      destruct first as [d|]; [|done]. cbn in *.
      destruct Hst as [Hst|[Hst|(s & [= <-] & Hle')]]; [done|done|].
      by apply isoformat_leb.
    - intros [Hst Hle]. split.
      + eexists. split; [done|]. by apply isoformat_leb.
      + destruct first as [d|]; [|by left]. cbn in *.
        right. right. eexists. split; [done|]. by apply isoformat_leb. }
  split.
  - intros (j & body' & Hj & Hact & Heq).
    assert (j = i) as -> by (apply (f_equal ann_id) in Heq; by cbn in Heq).
    by assert (body' = body) as -> by congruence.
  - intros Hact. by exists i, body.
Qed.

Lemma active_inside_window_witness :
  ∃ act,
    get_active_announcements {| year := 2026; month := 11; day := 3 |}
      sample_db = (Return act, sample_db)
    ∧ (_serialize {| _id := "a1"; entries := sample_body |} ∈ act
       ↔ from_option
           (λ d, date_le d {| year := 2026; month := 11; day := 3 |}) True
           (Some {| year := 2026; month := 1; day := 1 |})
         ∧ date_le {| year := 2026; month := 11; day := 3 |}
                   {| year := 2099; month := 1; day := 1 |}).
Proof.
  apply (active_inside_window
           {| year := 2026; month := 11; day := 3 |}
           (Some {| year := 2026; month := 1; day := 1 |})
           {| year := 2099; month := 1; day := 1 |} "a1" sample_body
           sample_db);
    try reflexivity;
    unfold printable; cbn [from_option year month day];
    repeat split; apply Nat.ltb_lt; vm_compute; reflexivity.
Defined.
